(** * XML availability request to JSON pricing response

    A shallow embedding of [B2BHolidays_Assignment_Manisha_Chollangi.py]:
    the request extractor [parse_xml_request], the response builder
    [generate_json_response] and the module-level [try]/[except] that
    prints either the offer or an error document.

    Python values are modelled as the interpreter has them: a [str] is a
    sequence of Unicode code points, an [int] is an unbounded integer, a
    [float] is an IEEE 754 binary64 number, a [dict] is a finite map and a
    [set] a finite set.  The services the script takes from its
    environment (the expat XML parser, the clock, the random generator,
    the interpreter's limit on the digits [int] converts, [repr]) are the
    fields of one record, [Runtime]. *)

From Stdlib Require Import ZArith NArith List String Ascii Bool Lia Floats.
From Stdlib Require Import DecimalString DecimalFacts DecimalPos DecimalN.
From stdpp Require Import base decidable option list gmap.
Import ListNotations.

Set Warnings "-inexact-float,-register-all".
#[local] Open Scope Z_scope.

(** ** Python strings *)

(** A [str] is a list of code points ([0 .. 0x10FFFF]). *)
Abbreviation str := (list N).

(** An ASCII literal of the source as a [str]. *)
Definition py (s : string) : str := map N_of_ascii (list_ascii_of_string s).
Arguments py s%_string.

(** [str(n)] for a non-negative [int]. *)
Definition str_of_N (n : N) : str :=
  py (NilEmpty.string_of_uint (N.to_uint n)).

Module Unicode.

(** Code point ranges, both ends included. *)
Definition ranges := list (N * N).

Fixpoint find_range (c : N) (rs : ranges) : option (N * N) :=
  match rs with
  | [] => None
  | (lo, hi) :: rs' =>
      if ((lo <=? c) && (c <=? hi))%N then Some (lo, hi) else find_range c rs'
  end.

(** The characters with [Numeric_Type=Decimal] (general category Nd),
    Unicode 14.0.0 (the [unicodedata] of CPython 3.11).  Every range
    starts at a digit zero and runs over whole decades, so the decimal
    value of [c] in a range starting at [lo] is [(c - lo) mod 10]. *)
Definition decimal_ranges : ranges :=
  [ (0x30, 0x39); (0x660, 0x669); (0x6f0, 0x6f9); (0x7c0, 0x7c9);
    (0x966, 0x96f); (0x9e6, 0x9ef); (0xa66, 0xa6f); (0xae6, 0xaef);
    (0xb66, 0xb6f); (0xbe6, 0xbef); (0xc66, 0xc6f); (0xce6, 0xcef);
    (0xd66, 0xd6f); (0xde6, 0xdef); (0xe50, 0xe59); (0xed0, 0xed9);
    (0xf20, 0xf29); (0x1040, 0x1049); (0x1090, 0x1099); (0x17e0, 0x17e9);
    (0x1810, 0x1819); (0x1946, 0x194f); (0x19d0, 0x19d9); (0x1a80, 0x1a89);
    (0x1a90, 0x1a99); (0x1b50, 0x1b59); (0x1bb0, 0x1bb9); (0x1c40, 0x1c49);
    (0x1c50, 0x1c59); (0xa620, 0xa629); (0xa8d0, 0xa8d9); (0xa900, 0xa909);
    (0xa9d0, 0xa9d9); (0xa9f0, 0xa9f9); (0xaa50, 0xaa59); (0xabf0, 0xabf9);
    (0xff10, 0xff19); (0x104a0, 0x104a9); (0x10d30, 0x10d39);
    (0x11066, 0x1106f); (0x110f0, 0x110f9); (0x11136, 0x1113f);
    (0x111d0, 0x111d9); (0x112f0, 0x112f9); (0x11450, 0x11459);
    (0x114d0, 0x114d9); (0x11650, 0x11659); (0x116c0, 0x116c9);
    (0x11730, 0x11739); (0x118e0, 0x118e9); (0x11950, 0x11959);
    (0x11c50, 0x11c59); (0x11d50, 0x11d59); (0x11da0, 0x11da9);
    (0x16a60, 0x16a69); (0x16ac0, 0x16ac9); (0x16b50, 0x16b59);
    (0x1d7ce, 0x1d7ff); (0x1e140, 0x1e149); (0x1e2f0, 0x1e2f9);
    (0x1e950, 0x1e959); (0x1fbf0, 0x1fbf9) ]%N.

(** The characters with [Numeric_Type=Digit] that are not decimal:
    superscripts, subscripts, circled and parenthesised digits and the
    like.  [str.isdigit] accepts them, [int] does not. *)
Definition digit_only_ranges : ranges :=
  [ (0xb2, 0xb3); (0xb9, 0xb9); (0x1369, 0x1371); (0x19da, 0x19da);
    (0x2070, 0x2070); (0x2074, 0x2079); (0x2080, 0x2089); (0x2460, 0x2468);
    (0x2474, 0x247c); (0x2488, 0x2490); (0x24ea, 0x24ea); (0x24f5, 0x24fd);
    (0x24ff, 0x24ff); (0x2776, 0x277e); (0x2780, 0x2788); (0x278a, 0x2792);
    (0x10a40, 0x10a43); (0x10e60, 0x10e68); (0x11052, 0x1105a);
    (0x1f100, 0x1f10a) ]%N.

(** [Py_UNICODE_ISSPACE]: the characters [str.isspace] accepts. *)
Definition space_ranges : ranges :=
  [ (0x09, 0x0d); (0x1c, 0x20); (0x85, 0x85); (0xa0, 0xa0);
    (0x1680, 0x1680); (0x2000, 0x200a); (0x2028, 0x2029);
    (0x202f, 0x202f); (0x205f, 0x205f); (0x3000, 0x3000) ]%N.

(** [Py_UNICODE_TODECIMAL]. *)
Definition decimal (c : N) : option N :=
  match find_range c decimal_ranges with
  | Some (lo, _) => Some ((c - lo) mod 10)%N
  | None => None
  end.

(** [Py_UNICODE_ISDIGIT]. *)
Definition isdigit (c : N) : bool :=
  match decimal c with
  | Some _ => true
  | None => bool_decide (is_Some (find_range c digit_only_ranges))
  end.

Definition isspace (c : N) : bool :=
  bool_decide (is_Some (find_range c space_ranges)).

End Unicode.

(** [str.isdigit()]: at least one character, and every character a digit. *)
Definition isdigit (s : str) : bool :=
  match s with
  | [] => false
  | _ => forallb Unicode.isdigit s
  end.

(** ** Exceptions *)

(** The exception classes that can reach the module-level handler. *)
Inductive exc_class :=
| Exception
| SyntaxError
| ParseError            (* xml.etree.ElementTree.ParseError *)
| ValueError
| UnicodeError
| UnicodeEncodeError
| LookupError
| KeyError
| RuntimeError
| NotImplementedError.

#[global] Instance exc_class_eq_dec : EqDecision exc_class.
Proof. solve_decision. Defined.

(** The method resolution order of each class, up to [Exception]. *)
Definition mro (c : exc_class) : list exc_class :=
  match c with
  | Exception => [Exception]
  | SyntaxError => [SyntaxError; Exception]
  | ParseError => [ParseError; SyntaxError; Exception]
  | ValueError => [ValueError; Exception]
  | UnicodeError => [UnicodeError; ValueError; Exception]
  | UnicodeEncodeError => [UnicodeEncodeError; UnicodeError; ValueError; Exception]
  | LookupError => [LookupError; Exception]
  | KeyError => [KeyError; LookupError; Exception]
  | RuntimeError => [RuntimeError; Exception]
  | NotImplementedError => [NotImplementedError; RuntimeError; Exception]
  end.

Definition issubclass (c d : exc_class) : bool := bool_decide (d ∈ mro c).

(** A raised exception: its class and [str(e)]. *)
Record exn := mkExn { exn_class : exc_class; exn_str : str }.

(** A computation returns a value or raises. *)
Inductive result (A : Type) :=
| Ok (a : A)
| Raise (e : exn).
Arguments Ok {A} a.
Arguments Raise {A} e.

#[global] Instance result_ret : MRet result := @Ok.
#[global] Instance result_bind : MBind result := fun A B k r =>
  match r with
  | Ok a => k a
  | Raise e => Raise e
  end.

(** ** xml.etree.ElementTree *)

Module ET.

(** An [Element]: tag, attribute dictionary, text before the first
    child, children, text after the end tag. *)
Inductive Element := mkElement {
  tag : str;
  attrib : gmap str str;
  text : option str;
  children : list Element;
  tail : option str
}.

(** [Element.iter()]: the element and its descendants in document order. *)
Fixpoint iter (e : Element) : list Element :=
  match e with
  | mkElement _ _ _ cs _ => e :: flat_map iter cs
  end.

(** The steps of an ElementPath expression, as [xpath_tokenizer] and the
    [prepare_*] functions of [ElementPath.py] read them. *)
Inductive step :=
| Self                      (* "."     prepare_self *)
| Descendant (name : str)   (* "//tag" prepare_descendant *)
| Child (name : str).       (* "tag"   prepare_child *)

Definition has_tag (name : str) (e : Element) : bool :=
  bool_decide (tag e = name).

(** One selector applied to the current result list.  [prepare_descendant]
    walks [elem.iter(tag)] and drops [elem] itself. *)
Definition select (st : step) (result : list Element) : list Element :=
  match st with
  | Self => result
  | Descendant name =>
      flat_map (fun elem => filter (fun e => has_tag name e = true)
                              (flat_map iter (children elem))) result
  | Child name =>
      flat_map (fun elem => filter (fun e => has_tag name e = true)
                              (children elem)) result
  end.

(** [ElementPath.iterfind]. *)
Definition iterfind (elem : Element) (path : list step) : list Element :=
  fold_left (fun result st => select st result) path [elem].

(** [Element.find(path)]: the first match or [None]. *)
Definition find (elem : Element) (path : list step) : option Element :=
  head (iterfind elem path).

(** [Element.findtext(path, default)]: the text of the first match, the
    empty string when that element has no text, [default] when nothing
    matches. *)
Definition findtext (elem : Element) (path : list step)
    (default : option str) : option str :=
  match find elem path with
  | Some e => match text e with
              | None => Some []
              | Some t => Some t
              end
  | None => default
  end.

End ET.

(** ** The interpreter and its libraries *)

(** What the script takes from its environment.  [ET_fromstring] is
    [xml.etree.ElementTree.fromstring] (expat behind it): it returns the
    root element or raises.  [int_max_str_digits] is
    [sys.get_int_max_str_digits()]: 4300 by default since CPython 3.11, 0
    when the limit is off or absent.  [strftime_now] is
    [datetime.datetime.now().strftime("%Y%m%d%H%M%S")] and [randint] is
    [random.randint] at the moment of the call. *)
Class Runtime := {
  ET_fromstring : str -> result ET.Element;
  int_max_str_digits : N;
  repr : str -> str;
  strftime_now : str;
  randint : Z -> Z -> Z
}.

(** ** int(str) *)

Section Int.
Context {rt : Runtime}.

#[local] Open Scope N_scope.

(** [_PyUnicode_TransformDecimalAndSpaceToASCII]: Unicode spaces become
    a blank, decimal digits their ASCII digit; at the first other
    non-ASCII character the buffer ends with a question mark. *)
Fixpoint to_ascii_decimal (s : str) : list N :=
  match s with
  | [] => []
  | c :: s' =>
      if c <? 127 then c :: to_ascii_decimal s'
      else if Unicode.isspace c then 32 :: to_ascii_decimal s'
      else match Unicode.decimal c with
           | Some d => (48 + d) :: to_ascii_decimal s'
           | None => [63]
           end
  end.

(** [Py_ISSPACE]. *)
Definition is_c_space (c : N) : bool := ((9 <=? c) && (c <=? 13)) || (c =? 32).

Fixpoint skip_spaces (s : list N) : list N :=
  match s with
  | c :: s' => if is_c_space c then skip_spaces s' else s
  | [] => []
  end.

Definition c_digit (c : N) : option N :=
  if (48 <=? c) && (c <=? 57) then Some (c - 48) else None.

Inductive scan_result :=
| ScanError
| ScanDone (value : Z) (digits : N) (rest : list N).

(** The digit loop of [PyLong_FromString] in base 10: digits, with
    single underscores between them. *)
Fixpoint scan (s : list N) (value : Z) (digits : N) (prev_underscore : bool)
    : scan_result :=
  match s with
  | [] => if prev_underscore then ScanError else ScanDone value digits []
  | c :: s' =>
      if c =? 95 then
        if prev_underscore then ScanError else scan s' value digits true
      else match c_digit c with
           | Some d => scan s' (10 * value + Z.of_N d)%Z (digits + 1) false
           | None => if prev_underscore then ScanError
                     else ScanDone value digits s
           end
  end.

Definition starts_with (c : N) (s : list N) : bool :=
  match s with
  | c' :: _ => c' =? c
  | [] => false
  end.

(** An optional plus or minus sign: whether the number is negative, and
    what follows the sign. *)
Definition read_sign (buf : list N) : bool * list N :=
  if starts_with 43 buf then (false, List.tl buf)
  else if starts_with 45 buf then (true, List.tl buf)
  else (false, buf).

Definition invalid_literal (s : str) : exn :=
  mkExn ValueError (py "invalid literal for int() with base 10: " ++ repr s).

Definition exceeds_limit (digits : N) : exn :=
  mkExn ValueError
    (py "Exceeds the limit (" ++ str_of_N int_max_str_digits
     ++ py " digits) for integer string conversion: value has "
     ++ str_of_N digits
     ++ py " digits; use sys.set_int_max_str_digits() to increase the limit").

(** [int(s)] for a [str]: optional blanks, an optional sign, the digits,
    optional blanks. *)
Definition int (s : str) : result Z :=
  let buf := skip_spaces (to_ascii_decimal s) in
  let '(negative, buf) := read_sign buf in
  if starts_with 95 buf then Raise (invalid_literal s)
  else
    match scan buf 0 0 false with
    | ScanError => Raise (invalid_literal s)
    | ScanDone value digits rest =>
        if (640 <? digits) && (0 <? int_max_str_digits)
           && (int_max_str_digits <? digits)
        then Raise (exceeds_limit digits)
        else if digits =? 0 then Raise (invalid_literal s)
        else match skip_spaces rest with
             | [] => Ok (if negative then - value else value)%Z
             | _ => Raise (invalid_literal s)
             end
    end.

End Int.

(** ** float *)

Module PyFloat.

(** The quotient [n / d] of two positive integers rounded to the nearest
    integer, ties to the even one. *)
Definition div_half_even (n d : Z) : Z :=
  let q := n / d in
  match 2 * (n mod d) ?= d with
  | Lt => q
  | Gt => q + 1
  | Eq => if Z.even q then q else q + 1
  end.

(** The binary64 number nearest to the rational [n / d], ties to even,
    with the sign [s]: what [strtod] returns for a decimal numeral. *)
Definition nearest (s : bool) (n d : positive) : float :=
  SF2Prim (SFdiv prec emax (S754_finite s n 0) (S754_finite false d 0)).

(** [round(x, ndigits)] for [ndigits >= 0], as [float.__round__] does it:
    the exact value of [x] is rounded to [ndigits] decimal places, ties
    to even ([_Py_dg_dtoa], mode 3), and the decimal numeral obtained is
    read back as a binary64 number ([_Py_dg_strtod]).  Beyond 323
    places, and on zeros, infinities and nan, [x] rounds to itself. *)
Definition round (x : float) (ndigits : N) : float :=
  match Prim2SF x with
  | S754_finite s m e =>
      if (323 <? ndigits)%N then x
      else
        let p := 10 ^ Z.of_N ndigits in
        let k := div_half_even (Z.pos m * p * 2 ^ Z.max e 0)
                               (2 ^ Z.max (- e) 0) in
        match k with
        | Z.pos k => nearest s k (Z.to_pos p)
        | _ => SF2Prim (S754_zero s)
        end
  | _ => x
  end.

End PyFloat.

(** ** Values *)

(** The values held by the request record: [None], a [str] or an [int].
    These are the values [parse_xml_request] puts in a record, and
    [generate_json_response] is modelled on such records; on a [dict]
    that holds other values (an unhashable currency at line 88, a value
    [json.dumps] cannot serialize at line 105) the source can also raise
    [TypeError], which is outside this model. *)
Inductive value :=
| VNone
| VStr (s : str)
| VInt (n : Z).

Definition value_of_text (t : option str) : value :=
  match t with
  | None => VNone
  | Some s => VStr s
  end.

(** A JSON document, as [json.dumps] receives it; a [dict] keeps the order
    in which its keys were inserted. *)
Inductive json :=
| JNull
| JInt (n : Z)
| JFloat (x : float)
| JStr (s : str)
| JList (items : list json)
| JDict (items : list (str * json)).

Definition json_of_value (v : value) : json :=
  match v with
  | VNone => JNull
  | VStr s => JStr s
  | VInt n => JInt n
  end.

(** [x in s] for a value that is [None] or a [str] and a set of [str]. *)
Definition contains (s : gset str) (x : option str) : bool :=
  match x with
  | Some t => bool_decide (t ∈ s)
  | None => false
  end.

(** [str(n)] for an [int]. *)
Definition str_of_Z (n : Z) : str :=
  match n with
  | Z.neg p => py "-" ++ str_of_N (N.pos p)
  | _ => str_of_N (Z.to_N n)
  end.

(** ** The script *)

(** *** Constants (lines 24-36) *)

Definition VALID_LANGUAGES : gset str := {[ py "en"; py "fr"; py "de"; py "es" ]}.
Definition DEFAULT_LANGUAGE : str := py "en".
Definition DEFAULT_OPTIONS_QUOTA : Z := 20.
Definition MAX_OPTIONS_QUOTA : Z := 50.
Definition VALID_CURRENCIES : gset str := {[ py "EUR"; py "USD"; py "GBP" ]}.
Definition DEFAULT_CURRENCY : str := py "EUR".
Definition VALID_NATIONALITIES : gset str := {[ py "US"; py "GB"; py "CA" ]}.
Definition DEFAULT_NATIONALITY : str := py "US".
Definition VALID_MARKETS : gset str := {[ py "US"; py "GB"; py "CA"; py "ES" ]}.
Definition DEFAULT_MARKET : str := py "ES".
Definition MARKUP_PERCENTAGE : float := 3.2%float.
Definition EXCHANGE_RATES : gmap str float :=
  {[ py "EUR" := 1.0%float; py "USD" := 1.1%float; py "GBP" := 0.9%float ]}.

(** *** The ElementPath expressions of [parse_xml_request] *)

(** [".//source/languageCode"] *)
Definition languageCode_path : list ET.step :=
  [ET.Self; ET.Descendant (py "source"); ET.Child (py "languageCode")].
(** [".//optionsQuota"] *)
Definition optionsQuota_path : list ET.step :=
  [ET.Self; ET.Descendant (py "optionsQuota")].
(** [".//Configuration/Parameters/Parameter"] *)
Definition Parameter_path : list ET.step :=
  [ET.Self; ET.Descendant (py "Configuration"); ET.Child (py "Parameters");
   ET.Child (py "Parameter")].
(** [".//SearchType"] *)
Definition SearchType_path : list ET.step := [ET.Self; ET.Descendant (py "SearchType")].
(** [".//StartDate"] *)
Definition StartDate_path : list ET.step := [ET.Self; ET.Descendant (py "StartDate")].
(** [".//EndDate"] *)
Definition EndDate_path : list ET.step := [ET.Self; ET.Descendant (py "EndDate")].
(** [".//Currency"] *)
Definition Currency_path : list ET.step := [ET.Self; ET.Descendant (py "Currency")].
(** [".//Nationality"] *)
Definition Nationality_path : list ET.step := [ET.Self; ET.Descendant (py "Nationality")].

Definition required_parameters : list str :=
  [py "password"; py "username"; py "CompanyID"].

Definition missing_parameters_message : str :=
  py "Missing required parameters: password, username, or CompanyID".

(** The printed document or the traceback of an exception nobody caught. *)
Inductive outcome :=
| Printed (document : json)
| Traceback (e : exn).

Section Script.
Context {rt : Runtime}.

(** *** parse_xml_request (lines 39-76) *)
Definition parse_xml_request (xml_string : str) : result (gmap str value) :=
  root ← ET_fromstring xml_string;
  let language := ET.findtext root languageCode_path (Some DEFAULT_LANGUAGE) in
  let language :=
    if contains VALID_LANGUAGES language then language else Some DEFAULT_LANGUAGE in
  let options_quota := ET.findtext root optionsQuota_path None in
  options_quota ←
    match options_quota with
    | Some ((_ :: _) as t) => if isdigit t then int t else Ok DEFAULT_OPTIONS_QUOTA
    | _ => Ok DEFAULT_OPTIONS_QUOTA
    end;
  let options_quota := Z.min options_quota MAX_OPTIONS_QUOTA in
  let parameters := ET.find root Parameter_path in
  if match parameters with
     | None => true
     | Some parameters =>
         negb (forallb (fun param => bool_decide (is_Some (ET.attrib parameters !! param)))
                       required_parameters)
     end
  then Raise (mkExn ValueError missing_parameters_message)
  else
    let search_type := ET.findtext root SearchType_path (Some (py "Single")) in
    let start_date := ET.findtext root StartDate_path None in
    let end_date := ET.findtext root EndDate_path None in
    let currency := ET.findtext root Currency_path (Some DEFAULT_CURRENCY) in
    let currency :=
      if contains VALID_CURRENCIES currency then currency else Some DEFAULT_CURRENCY in
    let nationality := ET.findtext root Nationality_path (Some DEFAULT_NATIONALITY) in
    let nationality :=
      if contains VALID_NATIONALITIES nationality then nationality
      else Some DEFAULT_NATIONALITY in
    Ok (<[py "language" := value_of_text language]>
        (<[py "options_quota" := VInt options_quota]>
        (<[py "search_type" := value_of_text search_type]>
        (<[py "start_date" := value_of_text start_date]>
        (<[py "end_date" := value_of_text end_date]>
        (<[py "currency" := value_of_text currency]>
        (<[py "nationality" := value_of_text nationality]> ∅))))))).

(** [d[key]] on the request record. *)
Definition getitem (d : gmap str value) (key : str) : result value :=
  match d !! key with
  | Some v => Ok v
  | None => Raise (mkExn KeyError (repr key))
  end.

(** [EXCHANGE_RATES.get(key, default)]: the keys of the table are
    [str], so any other value finds nothing. *)
Definition EXCHANGE_RATES_get (key : value) (default : float) : float :=
  match key with
  | VStr c => match EXCHANGE_RATES !! c with
              | Some rate => rate
              | None => default
              end
  | _ => default
  end.

(** *** generate_json_response (lines 79-105)

    The function returns [json.dumps(response, indent=4)], the text of
    [response]; the model returns [response]. *)
Definition generate_json_response (parsed_data : gmap str value) : result json :=
  let current_time := strftime_now in
  let hotel_code_supplier := str_of_Z (randint 10000000 99999999) in
  let net_price := 132.42%float in
  let markup := (MARKUP_PERCENTAGE / 100)%float in
  let selling_price := PyFloat.round (net_price * (1 + markup))%float 2 in
  currency ← getitem parsed_data (py "currency");
  let exchange_rate := EXCHANGE_RATES_get currency 1.0%float in
  selling_currency ← getitem parsed_data (py "currency");
  let market :=
    match parsed_data !! py "nationality" with
    | Some v => v
    | None => VStr DEFAULT_MARKET
    end in
  currency' ← getitem parsed_data (py "currency");
  Ok (JList [JDict [
    (py "id", JStr (py "A#" ++ current_time));
    (py "hotelCodeSupplier", JStr hotel_code_supplier);
    (py "market", json_of_value market);
    (py "price", JDict [
      (py "minimumSellingPrice", JNull);
      (py "currency", json_of_value currency');
      (py "net", JFloat net_price);
      (py "selling_price", JFloat selling_price);
      (py "selling_currency", json_of_value selling_currency);
      (py "markup", JFloat MARKUP_PERCENTAGE);
      (py "exchange_rate", JFloat exchange_rate)])]]).

(** *** Execution (lines 130-135)

    [except ValueError] catches the exceptions whose class derives from
    [ValueError] and prints the error document; any other exception
    leaves the script with a traceback. *)
Definition execution (xml_input : str) : outcome :=
  match parsed_data ← parse_xml_request xml_input;
        generate_json_response parsed_data with
  | Ok json_response => Printed json_response
  | Raise e =>
      if issubclass (exn_class e) ValueError
      then Printed (JDict [(py "error", JStr (exn_str e))])
      else Traceback e
  end.

End Script.

(** ** A reference runtime

    To run the script on concrete documents the development carries a
    small XML reader for the fragment the requests are written in:
    elements, attributes in single or double quotes, character data and
    [xmlns:prefix] declarations (which ElementTree does not list among
    the attributes).  On that fragment it builds the tree ElementTree
    builds and raises [ParseError] where expat does, with one fixed
    message in place of expat's, which names the error and its position.
    What lies outside
    the fragment (references, comments, processing instructions, CDATA
    sections, a prolog, prefixed or non-ASCII names, a default namespace,
    carriage returns and other control characters) raises
    [NotImplementedError].  The theorems below hold for every [Runtime];
    this one serves the examples. *)

Module Reference.

Import ET.
#[local] Open Scope N_scope.

(** An element whose end tag has not been read yet; the children are
    kept last first. *)
Record frame := mkFrame {
  f_tag : str;
  f_attrib : gmap str str;
  f_text : option str;
  f_children : list Element
}.

(** A start tag being read: its name, the attributes so far, and the
    names seen in it (namespace declarations included). *)
Record start_tag := mkStart {
  s_name : str;
  s_attrib : gmap str str;
  s_seen : list str
}.

Inductive mode :=
| Content (data : list N)                       (* character data, last first *)
| TagOpen                                       (* after "<" *)
| StartName (name : list N)                     (* the name, last first *)
| Attrs (t : start_tag)                         (* after a blank in a start tag *)
| AfterValue (t : start_tag)                    (* after an attribute value *)
| AttrName (t : start_tag) (name : list N)
| AttrEq (t : start_tag) (name : str)           (* waiting for "=" *)
| AttrQuote (t : start_tag) (name : str)        (* waiting for the quote *)
| AttrValue (t : start_tag) (name : str) (quote : N) (data : list N)
| EmptyClose (t : start_tag)                    (* after "/" in a start tag *)
| EndName (name : list N)                       (* after "</" *)
| EndSpace (name : str).

Record state := mkState {
  st_mode : mode;
  st_stack : list frame;          (* open elements, innermost first *)
  st_root : option Element        (* the root, once closed *)
}.

Definition is_blank (c : N) : bool := (c =? 32) || (c =? 9) || (c =? 10).
Definition is_name_start (c : N) : bool :=
  ((65 <=? c) && (c <=? 90)) || ((97 <=? c) && (c <=? 122)) || (c =? 95).
Definition is_name_char (c : N) : bool :=
  is_name_start c || ((48 <=? c) && (c <=? 57)) || (c =? 45) || (c =? 46).
(** The characters taken as character data or inside an attribute value. *)
Definition is_plain (c : N) : bool :=
  ((32 <=? c) && (c <? 0xD800)) || ((0xE000 <=? c) && (c <=? 0xFFFD))
  || ((0x10000 <=? c) && (c <=? 0x10FFFF)).

Definition parse_error : exn := mkExn ParseError (py "not well-formed").
Definition unsupported : exn := mkExn NotImplementedError (py "outside the fragment").

(** [TreeBuilder._flush]: the pending data becomes the text of the open
    element when it has no child yet, else the tail of its last child. *)
Definition flush (data : list N) (stack : list frame) : list frame :=
  match data, stack with
  | [], _ => stack
  | _, [] => []
  | _, f :: stack' =>
      let t := Some (rev data) in
      match f_children f with
      | [] => mkFrame (f_tag f) (f_attrib f) t [] :: stack'
      | last :: older =>
          mkFrame (f_tag f) (f_attrib f) (f_text f)
                  (mkElement (tag last) (attrib last) (text last)
                             (children last) t :: older) :: stack'
      end
  end.

Definition open_element (t : start_tag) (st : state) : state :=
  mkState (Content []) (mkFrame (s_name t) (s_attrib t) None [] :: st_stack st)
          (st_root st).

(** The end tag [name]: the innermost open element is closed and handed
    to its parent, or becomes the root. *)
Definition close_element (name : str) (st : state) : result state :=
  match st_stack st with
  | [] => Raise parse_error
  | f :: stack' =>
      if bool_decide (f_tag f = name) then
        let e := mkElement (f_tag f) (f_attrib f) (f_text f) (rev (f_children f)) None in
        match stack' with
        | [] => Ok (mkState (Content []) [] (Some e))
        | parent :: rest =>
            Ok (mkState (Content [])
                  (mkFrame (f_tag parent) (f_attrib parent) (f_text parent)
                           (e :: f_children parent) :: rest)
                  None)
        end
      else Raise parse_error
  end.

(** The attribute [name="value"] joins the start tag [t]. *)
Definition add_attribute (t : start_tag) (name value : str) : result start_tag :=
  if bool_decide (name ∈ s_seen t) then Raise parse_error
  else match name with
       | [120; 109; 108; 110; 115] => Raise unsupported              (* xmlns *)
       | 120 :: 109 :: 108 :: 110 :: 115 :: 58 :: prefix =>          (* xmlns:prefix *)
           if bool_decide (58 ∈ prefix) then Raise parse_error
           else match prefix, value with
                | [], _ | _, [] | 120 :: 109 :: 108 :: _, _ => Raise unsupported
                | _, _ => Ok (mkStart (s_name t) (s_attrib t) (name :: s_seen t))
                end
       | _ =>
           if bool_decide (58 ∈ name) then Raise unsupported
           else Ok (mkStart (s_name t) (<[name := value]> (s_attrib t)) (name :: s_seen t))
       end.

(** What a start tag does once its name and attributes are read, on the
    character [c] that follows them. *)
Definition in_start_tag (t : start_tag) (c : N) (st : state) : result state :=
  if is_blank c then Ok (mkState (Attrs t) (st_stack st) (st_root st))
  else if c =? 62 then Ok (open_element t st)
  else if c =? 47 then Ok (mkState (EmptyClose t) (st_stack st) (st_root st))
  else if (c <? 32) || (127 <? c) then Raise unsupported
  else Raise parse_error.

Definition step (c : N) (st : state) : result state :=
  let stack := st_stack st in
  let root := st_root st in
  let goto m := Ok (mkState m stack root) in
  match st_mode st with
  | Content data =>
      if c =? 60 then Ok (mkState TagOpen (flush data stack) root)
      else if c =? 38 then Raise unsupported
      else match stack with
           | [] => if is_blank c then goto (Content [])
                   else if (32 <? c) && (c <? 127) then Raise parse_error
                   else Raise unsupported
           | _ =>
               if (c =? 62) && match data with 93 :: 93 :: _ => true | _ => false end
               then Raise parse_error
               else if is_blank c || is_plain c then goto (Content (c :: data))
               else Raise unsupported
           end
  | TagOpen =>
      if c =? 47 then
        match stack with [] => Raise parse_error | _ => goto (EndName []) end
      else if (c =? 33) || (c =? 63) then Raise unsupported
      else if is_name_start c then
        match stack, root with
        | [], Some _ => Raise parse_error
        | _, _ => goto (StartName [c])
        end
      else if (c <? 32) || (127 <? c) || (c =? 58) then Raise unsupported
      else Raise parse_error
  | StartName name =>
      if is_name_char c then goto (StartName (c :: name))
      else if c =? 58 then Raise unsupported
      else in_start_tag (mkStart (rev name) ∅ []) c st
  | Attrs t =>
      if is_name_start c then goto (AttrName t [c])
      else in_start_tag t c st
  | AfterValue t => in_start_tag t c st
  | AttrName t name =>
      if is_name_char c || (c =? 58) then goto (AttrName t (c :: name))
      else if c =? 61 then goto (AttrQuote t (rev name))
      else if is_blank c then goto (AttrEq t (rev name))
      else if (c <? 32) || (127 <? c) then Raise unsupported
      else Raise parse_error
  | AttrEq t name =>
      if is_blank c then goto (AttrEq t name)
      else if c =? 61 then goto (AttrQuote t name)
      else if (c <? 32) || (127 <? c) then Raise unsupported
      else Raise parse_error
  | AttrQuote t name =>
      if is_blank c then goto (AttrQuote t name)
      else if (c =? 34) || (c =? 39) then goto (AttrValue t name c [])
      else if (c <? 32) || (127 <? c) then Raise unsupported
      else Raise parse_error
  | AttrValue t name quote data =>
      if c =? quote then
        t' ← add_attribute t name (rev data); goto (AfterValue t')
      else if c =? 60 then Raise parse_error
      else if c =? 38 then Raise unsupported
      else if is_blank c then goto (AttrValue t name quote (32 :: data))
      else if is_plain c then goto (AttrValue t name quote (c :: data))
      else Raise unsupported
  | EmptyClose t =>
      if c =? 62 then close_element (s_name t) (open_element t st)
      else if (c <? 32) || (127 <? c) then Raise unsupported
      else Raise parse_error
  | EndName name =>
      if is_name_char c then goto (EndName (c :: name))
      else if c =? 62 then close_element (rev name) st
      else if is_blank c then
        match name with [] => Raise parse_error | _ => goto (EndSpace (rev name)) end
      else if (c <? 32) || (127 <? c) || (c =? 58) then Raise unsupported
      else Raise parse_error
  | EndSpace name =>
      if is_blank c then goto (EndSpace name)
      else if c =? 62 then close_element name st
      else if (c <? 32) || (127 <? c) then Raise unsupported
      else Raise parse_error
  end.

Fixpoint run (input : list N) (st : state) : result state :=
  match input with
  | [] => Ok st
  | c :: input' => st' ← step c st; run input' st'
  end.

Definition fromstring (xml : str) : result Element :=
  st ← run xml (mkState (Content []) [] None);
  match st_mode st, st_stack st, st_root st with
  | Content _, [], Some root => Ok root
  | _, _, _ => Raise parse_error
  end.

(** [repr] of a [str] of printable characters with no quote and no
    backslash in it. *)
Definition quoted (s : str) : str := [39] ++ s ++ [39].

(** The reference runtime at a given reading of the clock and draw of
    the random generator, with CPython's default limit of 4300 digits. *)
Definition runtime (now : str) (draw : Z) : Runtime := {|
  ET_fromstring := fromstring;
  int_max_str_digits := 4300;
  repr := quoted;
  strftime_now := now;
  randint := fun _ _ => draw
|}.

End Reference.

(** *** The example request (lines 109-128) *)

Definition dq (s : string) : str := [34%N] ++ py s ++ [34%N].

Definition xml_input : str :=
  flat_map (fun line => line ++ [10%N])
    [ [];
      py "<AvailRQ xmlns:xsi=" ++ dq "http://www.w3.org/2001/XMLSchema-instance";
      py "xmlns:xsd=" ++ dq "http://www.w3.org/2001/XMLSchema" ++ py ">";
      py "    <timeoutMilliseconds>25000</timeoutMilliseconds>";
      py "    <source>";
      py "        <languageCode>en</languageCode>";
      py "    </source>";
      py "    <optionsQuota>20</optionsQuota>";
      py "    <Configuration>";
      py "        <Parameters>";
      py "            <Parameter password=" ++ dq "XXXXXXXXXX" ++ py " username="
        ++ dq "YYYYYYYYY" ++ py " CompanyID=" ++ dq "123456" ++ py "/>";
      py "        </Parameters>";
      py "    </Configuration>";
      py "    <SearchType>Multiple</SearchType>";
      py "    <StartDate>14/10/2024</StartDate>";
      py "    <EndDate>16/10/2024</EndDate>";
      py "    <Currency>USD</Currency>";
      py "    <Nationality>US</Nationality>";
      py "</AvailRQ>" ].

(** ** Reading the documents *)

(** [d[key]] on a JSON object. *)
Fixpoint assoc (key : str) (items : list (str * json)) : option json :=
  match items with
  | [] => None
  | (k, v) :: items' => if bool_decide (k = key) then Some v else assoc key items'
  end.

Definition json_get (key : str) (doc : json) : option json :=
  match doc with
  | JDict items => assoc key items
  | _ => None
  end.

(** The offer of a pricing document: the only item of its list. *)
Definition offer (doc : json) : option json :=
  match doc with
  | JList [o] => Some o
  | _ => None
  end.

(** [doc[0][key]] and [doc[0]["price"][key]]. *)
Definition offer_field (key : str) (doc : json) : option json :=
  match offer doc with
  | Some o => json_get key o
  | None => None
  end.
Definition price_field (key : str) (doc : json) : option json :=
  match offer_field (py "price") doc with
  | Some price => json_get key price
  | None => None
  end.

(** The error document [{"error": message}]. *)
Definition error_document (message : str) : json :=
  JDict [(py "error", JStr message)].

(** ** Views of the script

    The definitions below name sub-expressions of [parse_xml_request] and
    [generate_json_response], so that the theorems can speak of them;
    [parse_xml_request_root] and [generate_json_response_currency] relate
    them to the functions. *)

(** The text found at [path], [None] when no element matches. *)
Definition raw_text (root : ET.Element) (path : list ET.step) : option str :=
  ET.findtext root path None.

(** [x if x in valid else default], for [x] found or absent. *)
Definition validated (valid : gset str) (default : str) (t : option str) : str :=
  match t with
  | Some v => if bool_decide (v ∈ valid) then v else default
  | None => default
  end.

(** The credential element is there and carries the three attributes. *)
Definition credentials_present (root : ET.Element) : bool :=
  match ET.find root Parameter_path with
  | None => false
  | Some parameters =>
      forallb (fun param => bool_decide (is_Some (ET.attrib parameters !! param)))
              required_parameters
  end.

(** The dictionary literal of lines 68-76. *)
Definition request_record (language : str) (options_quota : Z)
    (search_type : str) (start_date end_date : option str)
    (currency nationality : str) : gmap str value :=
  <[py "language" := VStr language]>
  (<[py "options_quota" := VInt options_quota]>
  (<[py "search_type" := VStr search_type]>
  (<[py "start_date" := value_of_text start_date]>
  (<[py "end_date" := value_of_text end_date]>
  (<[py "currency" := VStr currency]>
  (<[py "nationality" := VStr nationality]> ∅)))))).

(** The record returned for [root] once the quota is converted to [q]. *)
Definition normalized (root : ET.Element) (q : Z) : gmap str value :=
  request_record
    (validated VALID_LANGUAGES DEFAULT_LANGUAGE (raw_text root languageCode_path))
    (Z.min q MAX_OPTIONS_QUOTA)
    (match raw_text root SearchType_path with Some t => t | None => py "Single" end)
    (raw_text root StartDate_path)
    (raw_text root EndDate_path)
    (validated VALID_CURRENCIES DEFAULT_CURRENCY (raw_text root Currency_path))
    (validated VALID_NATIONALITIES DEFAULT_NATIONALITY (raw_text root Nationality_path)).

(** Lines 85-87. *)
Definition selling_price : float :=
  PyFloat.round (132.42 * (1 + MARKUP_PERCENTAGE / 100))%float 2.

Section Views.
Context {rt : Runtime}.

(** Line 48: the conversion of the quota text. *)
Definition converted_quota (t : option str) : result Z :=
  match t with
  | Some ((_ :: _) as t) => if isdigit t then int t else Ok DEFAULT_OPTIONS_QUOTA
  | _ => Ok DEFAULT_OPTIONS_QUOTA
  end.

(** The response built from a record whose currency is [currency] and
    whose market resolves to [market]. *)
Definition response (currency market : value) : json :=
  JList [JDict [
    (py "id", JStr (py "A#" ++ strftime_now));
    (py "hotelCodeSupplier", JStr (str_of_Z (randint 10000000 99999999)));
    (py "market", json_of_value market);
    (py "price", JDict [
      (py "minimumSellingPrice", JNull);
      (py "currency", json_of_value currency);
      (py "net", JFloat 132.42%float);
      (py "selling_price", JFloat selling_price);
      (py "selling_currency", json_of_value currency);
      (py "markup", JFloat MARKUP_PERCENTAGE);
      (py "exchange_rate", JFloat (EXCHANGE_RATES_get currency 1.0%float))])]].

End Views.

(** The text is absent, or is no member of [valid]. *)
Definition absent_or_invalid (valid : gset str) (t : option str) : Prop :=
  match t with
  | None => True
  | Some v => v ∉ valid
  end.

(** What [to_ascii_decimal] makes of a digit: a blank, a question mark
    or an ASCII digit; never a sign or an underscore. *)
Definition plain_digit (c : N) : Prop :=
  (c = 32 \/ c = 63 \/ 48 <= c <= 57)%N.

(** ** Example documents *)

(** The reference runtime on 19 February 2025 at noon, drawing 12345678. *)
Definition example_runtime : Runtime :=
  Reference.runtime (py "20250219120000") 12345678.

Definition credentials : str :=
  py "<Configuration><Parameters><Parameter password=" ++ dq "p"
  ++ py " username=" ++ dq "u" ++ py " CompanyID=" ++ dq "c"
  ++ py "/></Parameters></Configuration>".

(** SUPERSCRIPT TWO, U+00B2. *)
Definition superscript_two : N := 0xB2%N.

(** A request whose quota is a superscript two, with its credentials. *)
Definition superscript_quota_request : str :=
  py "<AvailRQ><optionsQuota>" ++ [superscript_two] ++ py "</optionsQuota>"
  ++ credentials ++ py "</AvailRQ>".

(** The same request without the credential element. *)
Definition superscript_quota_no_credentials : str :=
  py "<AvailRQ><optionsQuota>" ++ [superscript_two] ++ py "</optionsQuota></AvailRQ>".

(** A request whose root element is never closed. *)
Definition unclosed_request : str :=
  py "<AvailRQ><Currency>USD</Currency>".

(** A request with a quota of 75, an unknown language, currency and
    nationality, and an empty search type. *)
Definition unnormalized_request : str :=
  py "<AvailRQ><source><languageCode>it</languageCode></source>"
  ++ py "<optionsQuota>75</optionsQuota>" ++ credentials
  ++ py "<SearchType></SearchType><Currency>XYZ</Currency>"
  ++ py "<Nationality>FR</Nationality></AvailRQ>".

(** The request that carries what the extractor made of the previous one. *)
Definition renormalized_request : str :=
  py "<AvailRQ><source><languageCode>en</languageCode></source>"
  ++ py "<optionsQuota>50</optionsQuota>" ++ credentials
  ++ py "<SearchType></SearchType><Currency>EUR</Currency>"
  ++ py "<Nationality>US</Nationality></AvailRQ>".

(** A request with no quota and a sterling price. *)
Definition sterling_request : str :=
  py "<AvailRQ>" ++ credentials ++ py "<Currency>GBP</Currency></AvailRQ>".

(** ** Further views and documents *)

(** Every character is an ASCII digit. *)
Definition ascii_digits (t : str) : bool :=
  forallb (fun c => (48 <=? c) && (c <=? 57))%N t.

(** The number a string of ASCII digits denotes in base 10. *)
Definition decimal_value (t : str) : Z :=
  fold_left (fun v c => 10 * v + Z.of_N (c - 48)) t 0.

(** The seven paths whose texts [parse_xml_request] reads. *)
Definition request_paths : list (list ET.step) :=
  [languageCode_path; optionsQuota_path; SearchType_path; StartDate_path;
   EndDate_path; Currency_path; Nationality_path].

(** Two runtimes that differ at most in the clock and the random draw. *)
Definition same_interpreter (rt1 rt2 : Runtime) : Prop :=
  (forall s, @ET_fromstring rt1 s = @ET_fromstring rt2 s)
  /\ @int_max_str_digits rt1 = @int_max_str_digits rt2
  /\ (forall s, @repr rt1 s = @repr rt2 s).

(** The messages of the error documents that come from the quota. *)
Definition quota_error_message {rt : Runtime} (t : str) (m : str) : Prop :=
  m = exn_str (invalid_literal t) \/ exists n, m = exn_str (exceeds_limit n).

(** A request in French, in sterling, for a Canadian, with a quota
    written with leading zeros. *)
Definition valid_request : str :=
  py "<AvailRQ><source><languageCode>fr</languageCode></source>"
  ++ py "<optionsQuota>007</optionsQuota>" ++ credentials
  ++ py "<Currency>GBP</Currency><Nationality>CA</Nationality></AvailRQ>".

(** A request whose quota has 4301 digits. *)
Definition long_quota_request : str :=
  py "<AvailRQ><optionsQuota>" ++ repeat 57%N 4301 ++ py "</optionsQuota>"
  ++ credentials ++ py "</AvailRQ>".

(** A request whose dates are no dates and come in the wrong order. *)
Definition dated_request : str :=
  py "<AvailRQ>" ++ credentials
  ++ py "<StartDate>31/12/2024</StartDate><EndDate>yesterday</EndDate></AvailRQ>".

(** The sterling request under another root element, with an attribute
    and a text of its own. *)
Definition other_root_request : str :=
  py "<Search kind=" ++ dq "hotel" ++ py ">hotels" ++ credentials
  ++ py "<Currency>GBP</Currency></Search>".

(** A request whose first [Parameter] element holds the password only,
    and whose second one holds the three credentials. *)
Definition two_parameters_request : str :=
  py "<AvailRQ><Configuration><Parameters><Parameter password=" ++ dq "p"
  ++ py "/><Parameter password=" ++ dq "p" ++ py " username=" ++ dq "u"
  ++ py " CompanyID=" ++ dq "c" ++ py "/></Parameters></Configuration></AvailRQ>".

(** A request whose quota is written with a sign. *)
Definition signed_quota_request : str :=
  py "<AvailRQ><optionsQuota>+75</optionsQuota>" ++ credentials
  ++ py "</AvailRQ>".

(** * Properties *)

(** Closed goals are settled by evaluation. *)
Ltac run := vm_compute; reflexivity.

(** Two keys of the record that differ as literals differ. *)
Ltac key_neq :=
  let H := fresh in intro H; vm_compute in H; discriminate H.

Ltac record_lookup :=
  unfold request_record;
  repeat first [ apply lookup_insert_eq
               | rewrite lookup_insert_ne by key_neq ].

Section Record.
Context (l : str) (q : Z) (st : str) (sd ed : option str) (c n : str).

Lemma record_language :
  request_record l q st sd ed c n !! py "language" = Some (VStr l).
Proof. record_lookup. Qed.
Lemma record_options_quota :
  request_record l q st sd ed c n !! py "options_quota" = Some (VInt q).
Proof. record_lookup. Qed.
Lemma record_search_type :
  request_record l q st sd ed c n !! py "search_type" = Some (VStr st).
Proof. record_lookup. Qed.
Lemma record_start_date :
  request_record l q st sd ed c n !! py "start_date" = Some (value_of_text sd).
Proof. record_lookup. Qed.
Lemma record_end_date :
  request_record l q st sd ed c n !! py "end_date" = Some (value_of_text ed).
Proof. record_lookup. Qed.
Lemma record_currency :
  request_record l q st sd ed c n !! py "currency" = Some (VStr c).
Proof. record_lookup. Qed.
Lemma record_nationality :
  request_record l q st sd ed c n !! py "nationality" = Some (VStr n).
Proof. record_lookup. Qed.

End Record.

(** [findtext] with a default is [findtext] without one, then the default. *)
Lemma findtext_default (root : ET.Element) (path : list ET.step) (d : str) :
  ET.findtext root path (Some d)
  = Some (match raw_text root path with Some t => t | None => d end).
Proof.
  unfold raw_text, ET.findtext.
  destruct (ET.find root path) as [e|]; [destruct (ET.text e)|]; reflexivity.
Qed.

(** The validation idiom of lines 45, 63 and 66. *)
Lemma validated_spec (valid : gset str) (d : str) (root : ET.Element)
    (path : list ET.step) :
  d ∈ valid ->
  (if contains valid (ET.findtext root path (Some d))
   then ET.findtext root path (Some d) else Some d)
  = Some (validated valid d (raw_text root path)).
Proof.
  intros Hd. rewrite findtext_default.
  unfold validated, contains.
  destruct (raw_text root path) as [t|].
  - destruct (bool_decide (t ∈ valid)); reflexivity.
  - rewrite bool_decide_eq_true_2 by exact Hd. reflexivity.
Qed.

Lemma validated_in (valid : gset str) (d : str) (t : option str) :
  d ∈ valid -> validated valid d t ∈ valid.
Proof.
  intros Hd. unfold validated. destruct t as [v|]; [|exact Hd].
  destruct (bool_decide (v ∈ valid)) eqn:E; [|exact Hd].
  apply bool_decide_eq_true in E. exact E.
Qed.

Lemma validated_default (valid : gset str) (d : str) (t : option str) :
  (t = None \/ exists v, t = Some v /\ v ∉ valid) -> validated valid d t = d.
Proof.
  intros [->|(v & -> & Hv)]; [reflexivity|].
  unfold validated. rewrite bool_decide_eq_false_2 by exact Hv. reflexivity.
Qed.

Lemma validated_valid (valid : gset str) (d v : str) :
  v ∈ valid -> validated valid d (Some v) = v.
Proof.
  intros Hv. unfold validated. rewrite bool_decide_eq_true_2 by exact Hv.
  reflexivity.
Qed.

Lemma DEFAULT_LANGUAGE_valid : DEFAULT_LANGUAGE ∈ VALID_LANGUAGES.
Proof. unfold DEFAULT_LANGUAGE, VALID_LANGUAGES. set_solver. Qed.
Lemma DEFAULT_CURRENCY_valid : DEFAULT_CURRENCY ∈ VALID_CURRENCIES.
Proof. unfold DEFAULT_CURRENCY, VALID_CURRENCIES. set_solver. Qed.
Lemma DEFAULT_NATIONALITY_valid : DEFAULT_NATIONALITY ∈ VALID_NATIONALITIES.
Proof. unfold DEFAULT_NATIONALITY, VALID_NATIONALITIES. set_solver. Qed.

Section Extractor.
Context {rt : Runtime}.

(** [parse_xml_request] on a document that parses to [root]: the quota
    is converted, then the credentials are checked, then the record is
    built. *)
Lemma parse_xml_request_root (s : str) (root : ET.Element) :
  ET_fromstring s = Ok root ->
  parse_xml_request s =
    match converted_quota (raw_text root optionsQuota_path) with
    | Raise e => Raise e
    | Ok q =>
        if credentials_present root then Ok (normalized root q)
        else Raise (mkExn ValueError missing_parameters_message)
    end.
Proof.
  intros Hroot. unfold parse_xml_request. rewrite Hroot.
  cbn [mbind result_bind].
  fold (raw_text root optionsQuota_path).
  change (match raw_text root optionsQuota_path with
          | Some ((_ :: _) as t) => if isdigit t then int t else Ok DEFAULT_OPTIONS_QUOTA
          | _ => Ok DEFAULT_OPTIONS_QUOTA
          end) with (converted_quota (raw_text root optionsQuota_path)).
  destruct (converted_quota (raw_text root optionsQuota_path)) as [q|e];
    [|reflexivity].
  cbn [mbind result_bind]. cbv zeta.
  rewrite (validated_spec _ _ root languageCode_path DEFAULT_LANGUAGE_valid).
  rewrite (validated_spec _ _ root Currency_path DEFAULT_CURRENCY_valid).
  rewrite (validated_spec _ _ root Nationality_path DEFAULT_NATIONALITY_valid).
  rewrite (findtext_default root SearchType_path).
  unfold credentials_present, normalized, request_record, raw_text.
  destruct (ET.find root Parameter_path) as [parameters|]; [|reflexivity].
  destruct (forallb _ required_parameters); reflexivity.
Qed.

(** A record is returned only for a parsed document whose quota text
    converts and whose credentials are present, and it is the
    normalized record of that document. *)
Lemma parse_xml_request_Ok (s : str) (d : gmap str value) :
  parse_xml_request s = Ok d ->
  exists root q,
    ET_fromstring s = Ok root
    /\ converted_quota (raw_text root optionsQuota_path) = Ok q
    /\ credentials_present root = true
    /\ d = normalized root q.
Proof.
  intros Hd. destruct (ET_fromstring s) as [root|e] eqn:Hroot.
  - rewrite (parse_xml_request_root s root Hroot) in Hd.
    destruct (converted_quota _) as [q|e] eqn:Hq; [|discriminate].
    destruct (credentials_present root) eqn:Hcred; [|discriminate].
    exists root, q. repeat split; congruence.
  - unfold parse_xml_request in Hd. rewrite Hroot in Hd. discriminate.
Qed.

Lemma normalized_language (root : ET.Element) (q : Z) :
  normalized root q !! py "language"
  = Some (VStr (validated VALID_LANGUAGES DEFAULT_LANGUAGE
                  (raw_text root languageCode_path))).
Proof. unfold normalized. apply record_language. Qed.

Lemma normalized_options_quota (root : ET.Element) (q : Z) :
  normalized root q !! py "options_quota" = Some (VInt (Z.min q MAX_OPTIONS_QUOTA)).
Proof. unfold normalized. apply record_options_quota. Qed.

Lemma normalized_search_type (root : ET.Element) (q : Z) :
  normalized root q !! py "search_type"
  = Some (VStr (match raw_text root SearchType_path with
                | Some t => t
                | None => py "Single"
                end)).
Proof. unfold normalized. apply record_search_type. Qed.

Lemma normalized_currency (root : ET.Element) (q : Z) :
  normalized root q !! py "currency"
  = Some (VStr (validated VALID_CURRENCIES DEFAULT_CURRENCY
                  (raw_text root Currency_path))).
Proof. unfold normalized. apply record_currency. Qed.

Lemma normalized_nationality (root : ET.Element) (q : Z) :
  normalized root q !! py "nationality"
  = Some (VStr (validated VALID_NATIONALITIES DEFAULT_NATIONALITY
                  (raw_text root Nationality_path))).
Proof. unfold normalized. apply record_nationality. Qed.

End Extractor.

Section Builder.
Context {rt : Runtime}.

Lemma generate_json_response_currency (d : gmap str value) (currency : value) :
  d !! py "currency" = Some currency ->
  generate_json_response d =
    Ok (response currency
          (match d !! py "nationality" with
           | Some v => v
           | None => VStr DEFAULT_MARKET
           end)).
Proof.
  intros Hc. unfold generate_json_response, getitem. rewrite Hc. reflexivity.
Qed.

Lemma response_market (c m : value) :
  offer_field (py "market") (response c m) = Some (json_of_value m).
Proof. reflexivity. Qed.
Lemma response_currency (c m : value) :
  price_field (py "currency") (response c m) = Some (json_of_value c).
Proof. reflexivity. Qed.
Lemma response_selling_currency (c m : value) :
  price_field (py "selling_currency") (response c m) = Some (json_of_value c).
Proof. reflexivity. Qed.
Lemma response_selling_price (c m : value) :
  price_field (py "selling_price") (response c m) = Some (JFloat selling_price).
Proof. reflexivity. Qed.
Lemma response_exchange_rate (c m : value) :
  price_field (py "exchange_rate") (response c m)
  = Some (JFloat (EXCHANGE_RATES_get c 1.0%float)).
Proof. reflexivity. Qed.

(** A successful run prints the response built from the record. *)
Lemma execution_Ok (s : str) (d : gmap str value) (c n : value) :
  parse_xml_request s = Ok d ->
  d !! py "currency" = Some c ->
  d !! py "nationality" = Some n ->
  execution s = Printed (response c n).
Proof.
  intros Hd Hc Hn. unfold execution. rewrite Hd. cbn [mbind result_bind].
  rewrite (generate_json_response_currency d c Hc), Hn. reflexivity.
Qed.

End Builder.

(** ** Malformed markup *)

Section Claims_errors.
Context {rt : Runtime}.

(** C1.  When the XML parser rejects the input with a [ParseError], the
    script prints no error document: [ParseError] derives from
    [SyntaxError], the handler of line 134 catches [ValueError] only,
    and the run ends with the traceback of the uncaught exception. *)
Theorem malformed_markup_traceback (xml_string : str) (e : exn) :
  ET_fromstring xml_string = Raise e ->
  exn_class e = ParseError ->
  execution xml_string = Traceback e.
Proof.
  intros Hparse Hclass. unfold execution, parse_xml_request.
  rewrite Hparse. cbn [mbind result_bind]. rewrite Hclass. reflexivity.
Qed.

End Claims_errors.

Lemma malformed_markup_traceback_witness :
  @execution example_runtime unclosed_request
  = Traceback Reference.parse_error.
Proof.
  apply (@malformed_markup_traceback example_runtime unclosed_request
           Reference.parse_error).
  - vm_compute. reflexivity.
  - reflexivity.
Defined.

(** ** The selling price *)

Lemma selling_price_136_66 : selling_price = 136.66%float.
Proof. vm_compute. reflexivity. Qed.

Lemma float_136_66_is_not_136_58 : 136.66%float <> 136.58%float.
Proof.
  intros H. apply (f_equal Prim2SF) in H. vm_compute in H. discriminate H.
Qed.

Section Claims_price.
Context {rt : Runtime}.

(** C2, amended.  Every run whose extraction returns a record prints an
    offer whose [selling_price] is
    [round(132.42 * (1 + 3.2 / 100), 2)], and that number is 136.66. *)
Theorem selling_price_value (xml_string : str) (d : gmap str value) :
  parse_xml_request xml_string = Ok d ->
  exists doc,
    execution xml_string = Printed doc
    /\ price_field (py "selling_price") doc
       = Some (JFloat (PyFloat.round
                         (132.42 * (1 + MARKUP_PERCENTAGE / 100))%float 2))
    /\ PyFloat.round (132.42 * (1 + MARKUP_PERCENTAGE / 100))%float 2
       = 136.66%float.
Proof.
  intros Hd.
  destruct (parse_xml_request_Ok _ _ Hd) as (root & q & _ & _ & _ & ->).
  eexists. split; [|split].
  - eapply execution_Ok; [exact Hd| |].
    + apply normalized_currency.
    + apply normalized_nationality.
  - apply response_selling_price.
  - exact selling_price_136_66.
Qed.

End Claims_price.

Lemma selling_price_value_witness :
  exists doc,
    @execution example_runtime xml_input = Printed doc
    /\ price_field (py "selling_price") doc = Some (JFloat 136.66%float).
Proof.
  destruct (@parse_xml_request example_runtime xml_input) as [d|e] eqn:Hd;
    [|vm_compute in Hd; discriminate Hd].
  destruct (@selling_price_value example_runtime xml_input d Hd)
    as (doc & Hrun & Hprice & Hvalue).
  exists doc. split; [exact Hrun|]. rewrite Hprice, Hvalue. reflexivity.
Defined.

(** C2 as stated fails: on the example request of the script the printed
    [selling_price] is 136.66, which is not 136.58. *)
Lemma selling_price_is_not_136_58 :
  exists doc x,
    @execution example_runtime xml_input = Printed doc
    /\ price_field (py "selling_price") doc = Some (JFloat x)
    /\ x <> 136.58%float.
Proof.
  eexists _, 136.66%float. split; [|split].
  - vm_compute. reflexivity.
  - vm_compute. reflexivity.
  - exact float_136_66_is_not_136_58.
Qed.

(** ** Enumerated fields, market and exchange rate *)

Lemma validated_absent_or_invalid (valid : gset str) (d : str) (t : option str) :
  absent_or_invalid valid t -> validated valid d t = d.
Proof.
  intros H. apply validated_default. destruct t as [v|]; [right|left]; eauto.
Qed.

Lemma nationality_is_not_DEFAULT_MARKET (n : str) :
  n ∈ VALID_NATIONALITIES -> n <> DEFAULT_MARKET.
Proof.
  unfold VALID_NATIONALITIES. rewrite !elem_of_union, !elem_of_singleton.
  intros [[->| ->]| ->]; key_neq.
Qed.

Lemma EXCHANGE_RATES_valid (c : str) :
  c ∈ VALID_CURRENCIES ->
  exists rate, EXCHANGE_RATES !! c = Some rate
               /\ EXCHANGE_RATES_get (VStr c) 1.0%float = rate.
Proof.
  unfold VALID_CURRENCIES. rewrite !elem_of_union, !elem_of_singleton.
  intros [[->| ->]| ->]; eexists; split; vm_compute; reflexivity.
Qed.

Section Claims_fields.
Context {rt : Runtime}.

(** C6.  In every record the extractor returns, [language], [currency]
    and [nationality] are members of their allowed sets; each is the
    configured default ([en], [EUR], [US]) when its text is absent or
    outside the set; and the printed offer carries that currency (twice)
    and that nationality, as [market]. *)
Theorem enumerated_fields_validated (xml_string : str) (root : ET.Element)
    (d : gmap str value) :
  ET_fromstring xml_string = Ok root ->
  parse_xml_request xml_string = Ok d ->
  exists language currency nationality doc,
    d !! py "language" = Some (VStr language)
    /\ d !! py "currency" = Some (VStr currency)
    /\ d !! py "nationality" = Some (VStr nationality)
    /\ language ∈ VALID_LANGUAGES
    /\ currency ∈ VALID_CURRENCIES
    /\ nationality ∈ VALID_NATIONALITIES
    /\ (absent_or_invalid VALID_LANGUAGES (raw_text root languageCode_path) ->
        language = py "en")
    /\ (absent_or_invalid VALID_CURRENCIES (raw_text root Currency_path) ->
        currency = py "EUR")
    /\ (absent_or_invalid VALID_NATIONALITIES (raw_text root Nationality_path) ->
        nationality = py "US")
    /\ execution xml_string = Printed doc
    /\ price_field (py "currency") doc = Some (JStr currency)
    /\ price_field (py "selling_currency") doc = Some (JStr currency)
    /\ offer_field (py "market") doc = Some (JStr nationality).
Proof.
  intros Hroot Hd.
  destruct (parse_xml_request_Ok _ _ Hd) as (root' & q & Hroot' & _ & _ & ->).
  assert (root' = root) as -> by congruence.
  exists (validated VALID_LANGUAGES DEFAULT_LANGUAGE (raw_text root languageCode_path)),
         (validated VALID_CURRENCIES DEFAULT_CURRENCY (raw_text root Currency_path)),
         (validated VALID_NATIONALITIES DEFAULT_NATIONALITY
            (raw_text root Nationality_path)).
  eexists.
  split; [apply normalized_language|].
  split; [apply normalized_currency|].
  split; [apply normalized_nationality|].
  split; [apply validated_in, DEFAULT_LANGUAGE_valid|].
  split; [apply validated_in, DEFAULT_CURRENCY_valid|].
  split; [apply validated_in, DEFAULT_NATIONALITY_valid|].
  split; [intros H; apply (validated_absent_or_invalid _ _ _ H)|].
  split; [intros H; apply (validated_absent_or_invalid _ _ _ H)|].
  split; [intros H; apply (validated_absent_or_invalid _ _ _ H)|].
  split.
  { eapply execution_Ok; [exact Hd|apply normalized_currency
                                 |apply normalized_nationality]. }
  split; [apply response_currency|].
  split; [apply response_selling_currency|apply response_market].
Qed.

(** C7.  In every successful run the printed [market] is the
    [nationality] of the record; it is one of [US], [GB], [CA], hence
    never the fallback literal [ES]. *)
Theorem market_is_nationality (xml_string : str) (d : gmap str value) :
  parse_xml_request xml_string = Ok d ->
  exists doc nationality,
    execution xml_string = Printed doc
    /\ d !! py "nationality" = Some (VStr nationality)
    /\ offer_field (py "market") doc = Some (JStr nationality)
    /\ nationality ∈ VALID_NATIONALITIES
    /\ nationality <> DEFAULT_MARKET
    /\ DEFAULT_MARKET = py "ES".
Proof.
  intros Hd.
  destruct (parse_xml_request_Ok _ _ Hd) as (root & q & _ & _ & _ & ->).
  eexists. eexists.
  split.
  { eapply execution_Ok; [exact Hd|apply normalized_currency
                                 |apply normalized_nationality]. }
  split; [apply normalized_nationality|].
  split; [apply response_market|].
  assert (validated VALID_NATIONALITIES DEFAULT_NATIONALITY
            (raw_text root Nationality_path) ∈ VALID_NATIONALITIES) as Hin
    by apply validated_in, DEFAULT_NATIONALITY_valid.
  split; [exact Hin|].
  split; [exact (nationality_is_not_DEFAULT_MARKET _ Hin)|reflexivity].
Qed.

(** C8.  The response built from a record whose currency is [currency]
    carries the exchange rate of the table, and 1.0 when the table has
    no such key: it is the table's entry for the currency of every
    record the extractor returns, 0.9 for [GBP], and 1.0 for a value
    that is no key of the table. *)
Theorem exchange_rate_lookup (d : gmap str value) (currency : value) :
  d !! py "currency" = Some currency ->
  exists doc rate,
    generate_json_response d = Ok doc
    /\ price_field (py "exchange_rate") doc = Some (JFloat rate)
    /\ (forall xml_string, parse_xml_request xml_string = Ok d ->
        exists c, currency = VStr c /\ c ∈ VALID_CURRENCIES
                  /\ EXCHANGE_RATES !! c = Some rate)
    /\ (currency = VStr (py "EUR") -> rate = 1.0%float)
    /\ (currency = VStr (py "USD") -> rate = 1.1%float)
    /\ (currency = VStr (py "GBP") -> rate = 0.9%float)
    /\ ((forall c, currency = VStr c -> EXCHANGE_RATES !! c = None) ->
        rate = 1.0%float).
Proof.
  intros Hc. eexists. eexists.
  split; [apply (generate_json_response_currency d currency Hc)|].
  split; [apply response_exchange_rate|].
  split.
  { intros s Hd.
    destruct (parse_xml_request_Ok _ _ Hd) as (root & q & _ & _ & _ & ->).
    rewrite normalized_currency in Hc. injection Hc as <-.
    eexists. split; [reflexivity|]. split.
    - apply validated_in, DEFAULT_CURRENCY_valid.
    - destruct (EXCHANGE_RATES_valid
                  (validated VALID_CURRENCIES DEFAULT_CURRENCY
                     (raw_text root Currency_path))) as (r & Hr & <-).
      + apply validated_in, DEFAULT_CURRENCY_valid.
      + exact Hr. }
  split; [intros ->; reflexivity|].
  split; [intros ->; reflexivity|].
  split; [intros ->; reflexivity|].
  intros Hnone. destruct currency as [|c|n]; try reflexivity.
  unfold EXCHANGE_RATES_get. rewrite (Hnone c eq_refl). reflexivity.
Qed.

(** C10.  The [search_type] of the record is the text of the first
    [SearchType] element, the empty string when that element has no
    text, and ["Single"] only when there is no such element. *)
Theorem search_type_empty_text (xml_string : str) (root : ET.Element)
    (d : gmap str value) :
  ET_fromstring xml_string = Ok root ->
  parse_xml_request xml_string = Ok d ->
  (forall e, ET.find root SearchType_path = Some e -> ET.text e = None ->
             d !! py "search_type" = Some (VStr []))
  /\ (forall e t, ET.find root SearchType_path = Some e -> ET.text e = Some t ->
                  d !! py "search_type" = Some (VStr t))
  /\ (ET.find root SearchType_path = None ->
      d !! py "search_type" = Some (VStr (py "Single"))).
Proof.
  intros Hroot Hd.
  destruct (parse_xml_request_Ok _ _ Hd) as (root' & q & Hroot' & _ & _ & ->).
  assert (root' = root) as -> by congruence.
  rewrite normalized_search_type. unfold raw_text, ET.findtext.
  split; [|split].
  - intros e He Ht. rewrite He, Ht. reflexivity.
  - intros e t He Ht. rewrite He, Ht. reflexivity.
  - intros He. rewrite He. reflexivity.
Qed.

End Claims_fields.

(** ** The quota *)

Lemma find_range_Some (c : N) (rs : Unicode.ranges) (lo hi : N) :
  Unicode.find_range c rs = Some (lo, hi) ->
  In (lo, hi) rs /\ (lo <= c <= hi)%N.
Proof.
  induction rs as [|[l h] rs IH]; simpl; [discriminate|].
  destruct ((l <=? c) && (c <=? h))%N eqn:E.
  - intros [= -> ->]. apply andb_true_iff in E as [E1 E2].
    apply N.leb_le in E1, E2. split; [left; reflexivity|lia].
  - intros H. destruct (IH H) as [Hin Hle]. split; [right|]; assumption.
Qed.

(** Below DELETE the only digits are the ASCII ones. *)
Lemma digit_ranges_above_ascii :
  forallb (fun r => (127 <=? fst r) || ((48 <=? fst r) && (snd r <=? 57)))%N
          (Unicode.decimal_ranges ++ Unicode.digit_only_ranges) = true.
Proof. vm_compute. reflexivity. Qed.

Lemma isdigit_ascii (c : N) :
  Unicode.isdigit c = true -> (c < 127)%N -> (48 <= c <= 57)%N.
Proof.
  unfold Unicode.isdigit, Unicode.decimal. intros H Hc.
  assert (exists lo hi,
             In (lo, hi) (Unicode.decimal_ranges ++ Unicode.digit_only_ranges)
             /\ (lo <= c <= hi)%N) as (lo & hi & Hin & Hle).
  { destruct (Unicode.find_range c Unicode.decimal_ranges) as [[lo hi]|] eqn:E1.
    - apply find_range_Some in E1 as [Hin Hle].
      exists lo, hi. split; [apply in_or_app; left|]; assumption.
    - apply bool_decide_eq_true in H. destruct H as [[lo hi] E2].
      apply find_range_Some in E2 as [Hin Hle].
      exists lo, hi. split; [apply in_or_app; right|]; assumption. }
  pose proof digit_ranges_above_ascii as Hall.
  rewrite List.forallb_forall in Hall. specialize (Hall _ Hin). simpl in Hall.
  apply orb_true_iff in Hall as [H1|H2].
  - apply N.leb_le in H1. lia.
  - apply andb_true_iff in H2 as [H2 H3]. apply N.leb_le in H2, H3. lia.
Qed.

Lemma decimal_lt_10 (c d : N) : Unicode.decimal c = Some d -> (d < 10)%N.
Proof.
  unfold Unicode.decimal.
  destruct (Unicode.find_range c Unicode.decimal_ranges) as [[lo hi]|];
    [|discriminate].
  intros [= <-]. apply N.mod_lt. lia.
Qed.

Lemma skip_spaces_Forall (P : N -> Prop) (s : list N) :
  Forall P s -> Forall P (skip_spaces s).
Proof.
  induction 1 as [|c s Hc Hs IH]; simpl; [constructor|].
  destruct (is_c_space c); [exact IH|constructor; assumption].
Qed.

Lemma to_ascii_decimal_plain (t : str) :
  forallb Unicode.isdigit t = true -> Forall plain_digit (to_ascii_decimal t).
Proof.
  induction t as [|c t IH]; simpl; intros H; [constructor|].
  apply andb_true_iff in H as [Hc Ht].
  destruct (c <? 127)%N eqn:E.
  - constructor; [|exact (IH Ht)].
    right; right. apply isdigit_ascii; [exact Hc|]. apply N.ltb_lt. exact E.
  - destruct (Unicode.isspace c).
    + constructor; [left; reflexivity|exact (IH Ht)].
    + destruct (Unicode.decimal c) as [d|] eqn:D.
      * constructor; [|exact (IH Ht)].
        right; right. pose proof (decimal_lt_10 c d D). lia.
      * constructor; [right; left; reflexivity|constructor].
Qed.

Lemma read_sign_plain (buf : list N) :
  Forall plain_digit buf -> read_sign buf = (false, buf).
Proof.
  destruct buf as [|c b]; [reflexivity|]. intros H.
  apply Forall_inv in H. unfold plain_digit in H.
  unfold read_sign, starts_with.
  replace (c =? 43)%N with false by (symmetry; apply N.eqb_neq; lia).
  replace (c =? 45)%N with false by (symmetry; apply N.eqb_neq; lia).
  reflexivity.
Qed.

Lemma scan_nonneg (s : list N) :
  forall (v : Z) (n : N) (p : bool) (v' : Z) (n' : N) (rest : list N),
    0 <= v -> scan s v n p = ScanDone v' n' rest -> 0 <= v'.
Proof.
  induction s as [|c s IH]; simpl; intros v n p v' n' rest Hv H.
  - destruct p; [discriminate|]. injection H as <- _ _. exact Hv.
  - destruct (c =? 95)%N.
    + destruct p; [discriminate|]. exact (IH _ _ _ _ _ _ Hv H).
    + destruct (c_digit c) as [d|].
      * refine (IH _ _ _ _ _ _ _ H). lia.
      * destruct p; [discriminate|]. injection H as <- _ _. exact Hv.
Qed.

Section Quota.
Context {rt : Runtime}.

(** [int] raises nothing but the two [ValueError]s. *)
Lemma int_Raise (t : str) (e : exn) :
  int t = Raise e -> e = invalid_literal t \/ exists n, e = exceeds_limit n.
Proof.
  unfold int. destruct (read_sign _) as [negative buf].
  destruct (starts_with 95 buf); [intros [= <-]; left; reflexivity|].
  destruct (scan buf 0 0 false) as [|value digits rest];
    [intros [= <-]; left; reflexivity|].
  destruct (_ && _); [intros [= <-]; right; eexists; reflexivity|].
  destruct (digits =? 0)%N; [intros [= <-]; left; reflexivity|].
  destruct (skip_spaces rest); [discriminate|intros [= <-]; left; reflexivity].
Qed.

Lemma int_Raise_ValueError (t : str) (e : exn) :
  int t = Raise e ->
  exn_class e = ValueError /\ exn_str e <> missing_parameters_message.
Proof.
  intros H. destruct (int_Raise t e H) as [->|[n ->]]; (split; [reflexivity|]);
    intros Heq; apply (f_equal head) in Heq; vm_compute in Heq; discriminate Heq.
Qed.

(** A string of digits never converts to a negative number. *)
Lemma int_isdigit_nonneg (t : str) (n : Z) :
  isdigit t = true -> int t = Ok n -> 0 <= n.
Proof.
  intros Hd Hi.
  assert (Forall plain_digit (skip_spaces (to_ascii_decimal t))) as Hplain.
  { apply skip_spaces_Forall, to_ascii_decimal_plain.
    destruct t; [discriminate|exact Hd]. }
  unfold int in Hi. rewrite (read_sign_plain _ Hplain) in Hi.
  destruct (starts_with 95 _); [discriminate|].
  destruct (scan _ 0 0 false) as [|value digits rest] eqn:Hscan; [discriminate|].
  destruct (_ && _); [discriminate|].
  destruct (digits =? 0)%N; [discriminate|].
  destruct (skip_spaces rest); [|discriminate].
  injection Hi as <-. refine (scan_nonneg _ _ _ _ _ _ _ _ Hscan). lia.
Qed.

Lemma converted_quota_digits (t : str) :
  isdigit t = true -> converted_quota (Some t) = int t.
Proof.
  destruct t as [|c t]; [discriminate|]. intros H.
  unfold converted_quota. rewrite H. reflexivity.
Qed.

Lemma converted_quota_default (t : option str) :
  (t = None \/ exists v, t = Some v /\ isdigit v = false) ->
  converted_quota t = Ok DEFAULT_OPTIONS_QUOTA.
Proof.
  intros [->|(v & -> & H)]; [reflexivity|].
  destruct v as [|c v]; [reflexivity|].
  unfold converted_quota. rewrite H. reflexivity.
Qed.

Lemma converted_quota_nonneg (t : option str) (q : Z) :
  converted_quota t = Ok q -> 0 <= q.
Proof.
  destruct t as [[|c v]|]; unfold converted_quota;
    try (intros [= <-]; unfold DEFAULT_OPTIONS_QUOTA; lia).
  destruct (isdigit (c :: v)) eqn:Hd.
  - apply int_isdigit_nonneg. exact Hd.
  - intros [= <-]. unfold DEFAULT_OPTIONS_QUOTA. lia.
Qed.

(** C4, as amended.  For a document with its credentials: a quota text
    made of digits ([str.isdigit], the guard of line 48) that converts to
    an integer above 50 gives an [options_quota] of 50; an absent quota,
    or a text that [str.isdigit] rejects, gives 20; and no record holds an
    [options_quota] above 50. *)
Theorem options_quota_normalized (xml_string : str) (root : ET.Element) :
  ET_fromstring xml_string = Ok root ->
  credentials_present root = true ->
  (forall t n,
      raw_text root optionsQuota_path = Some t ->
      isdigit t = true -> int t = Ok n -> 50 < n ->
      exists d, parse_xml_request xml_string = Ok d
                /\ d !! py "options_quota" = Some (VInt 50))
  /\ ((raw_text root optionsQuota_path = None
       \/ exists t, raw_text root optionsQuota_path = Some t
                    /\ isdigit t = false) ->
      exists d, parse_xml_request xml_string = Ok d
                /\ d !! py "options_quota" = Some (VInt 20))
  /\ (forall d, parse_xml_request xml_string = Ok d ->
                exists q, d !! py "options_quota" = Some (VInt q) /\ q <= 50)
  /\ MAX_OPTIONS_QUOTA = 50 /\ DEFAULT_OPTIONS_QUOTA = 20.
Proof.
  intros Hroot Hcred.
  pose proof (parse_xml_request_root _ _ Hroot) as Hparse.
  rewrite Hcred in Hparse.
  split; [|split; [|split; [|split; reflexivity]]].
  - intros t n Ht Hd Hn Hlt.
    rewrite Ht, (converted_quota_digits t Hd), Hn in Hparse.
    eexists. split; [exact Hparse|].
    rewrite normalized_options_quota. unfold MAX_OPTIONS_QUOTA.
    rewrite Z.min_r by lia. reflexivity.
  - intros Hq. rewrite (converted_quota_default _ Hq) in Hparse.
    eexists. split; [exact Hparse|].
    rewrite normalized_options_quota. reflexivity.
  - intros d Hd.
    destruct (parse_xml_request_Ok _ _ Hd) as (root' & q & _ & _ & _ & ->).
    eexists. split; [apply normalized_options_quota|].
    unfold MAX_OPTIONS_QUOTA. lia.
Qed.

(** C4 as stated fails: the quota text [+75] parses to the integer 75,
    which is above the maximum, yet [str.isdigit] rejects it and the
    record holds the default 20, not the maximum 50. *)
Lemma signed_quota_is_not_maximum :
  exists root d,
    @ET_fromstring example_runtime signed_quota_request = Ok root
    /\ credentials_present root = true
    /\ raw_text root optionsQuota_path = Some (py "+75")
    /\ @int example_runtime (py "+75") = Ok 75
    /\ MAX_OPTIONS_QUOTA < 75
    /\ @parse_xml_request example_runtime signed_quota_request = Ok d
    /\ d !! py "options_quota" = Some (VInt DEFAULT_OPTIONS_QUOTA)
    /\ d !! py "options_quota" <> Some (VInt MAX_OPTIONS_QUOTA).
Proof.
  assert (exists root,
             @ET_fromstring example_runtime signed_quota_request = Ok root
             /\ credentials_present root = true
             /\ raw_text root optionsQuota_path = Some (py "+75"))
    as (root & Hroot & Hcred & Ht).
  { eexists. split; [run|]. split; run. }
  assert (@parse_xml_request example_runtime signed_quota_request
          = Ok (normalized root DEFAULT_OPTIONS_QUOTA)) as Hd.
  { rewrite (parse_xml_request_root _ _ Hroot), Ht, Hcred. reflexivity. }
  exists root, (normalized root DEFAULT_OPTIONS_QUOTA).
  split; [exact Hroot|]. split; [exact Hcred|]. split; [exact Ht|].
  split; [run|]. split; [unfold MAX_OPTIONS_QUOTA; lia|]. split; [exact Hd|].
  rewrite normalized_options_quota. split; [reflexivity|].
  intros H. vm_compute in H. discriminate H.
Qed.

(** C5, on the failing inputs.  With the credentials present, a quota
    text that [str.isdigit] accepts and [int] rejects makes the
    extraction raise the [ValueError] of [int]: no record is returned. *)
Theorem quota_digits_rejected_by_int (xml_string : str) (root : ET.Element)
    (t : str) (e : exn) :
  ET_fromstring xml_string = Ok root ->
  credentials_present root = true ->
  raw_text root optionsQuota_path = Some t ->
  isdigit t = true ->
  int t = Raise e ->
  parse_xml_request xml_string = Raise e /\ exn_class e = ValueError.
Proof.
  intros Hroot Hcred Ht Hd He.
  rewrite (parse_xml_request_root _ _ Hroot), Ht, (converted_quota_digits t Hd), He.
  split; [reflexivity|]. apply (int_Raise_ValueError t e He).
Qed.

(** C3, on the failing inputs.  Without the credentials, a quota text
    that [str.isdigit] accepts and [int] rejects makes the script print
    the error document of [int]'s [ValueError], whose message is not the
    one that names the required parameters. *)
Theorem quota_error_before_credentials (xml_string : str) (root : ET.Element)
    (t : str) (e : exn) :
  ET_fromstring xml_string = Ok root ->
  credentials_present root = false ->
  raw_text root optionsQuota_path = Some t ->
  isdigit t = true ->
  int t = Raise e ->
  execution xml_string = Printed (error_document (exn_str e))
  /\ exn_str e <> missing_parameters_message.
Proof.
  intros Hroot Hcred Ht Hd He.
  destruct (int_Raise_ValueError t e He) as [Hclass Hmsg].
  split; [|exact Hmsg].
  unfold execution.
  rewrite (parse_xml_request_root _ _ Hroot), Ht, (converted_quota_digits t Hd), He.
  cbn [mbind result_bind]. rewrite Hclass. reflexivity.
Qed.

End Quota.

(** [int] rejects a superscript two, whatever the runtime. *)
Lemma int_superscript_two {rt : Runtime} :
  isdigit [superscript_two] = true
  /\ int [superscript_two] = Raise (invalid_literal [superscript_two]).
Proof. split; vm_compute; reflexivity. Qed.

(** ** Idempotence *)

Section Idempotence.
Context {rt : Runtime}.

(** The quota of a record, printed and read again, is itself. *)
Lemma converted_quota_small (n : nat) :
  (n <= 50)%nat ->
  converted_quota (Some (str_of_Z (Z.of_nat n))) = Ok (Z.of_nat n).
Proof.
  intros H. do 51 (destruct n as [|n]; [vm_compute; reflexivity|]). lia.
Qed.

Lemma converted_quota_str (q : Z) :
  0 <= q <= 50 -> converted_quota (Some (str_of_Z q)) = Ok q.
Proof.
  intros H. rewrite <- (Z2Nat.id q) by lia. apply converted_quota_small. lia.
Qed.

(** C9.  Let [d] be the record extracted from a document, and let a
    second document, with its credentials, carry the [language], the
    [options_quota] (printed in decimal), the [currency] and the
    [nationality] of [d] as its texts.  Then the extraction of the second
    document returns a record with the same four values: validation
    keeps a validated value, and the quota printed, converted and
    clamped again is itself. *)
Theorem extraction_idempotent (xml_string xml_string' : str)
    (root' : ET.Element) (d : gmap str value)
    (language currency nationality : str) (options_quota : Z) :
  parse_xml_request xml_string = Ok d ->
  d !! py "language" = Some (VStr language) ->
  d !! py "options_quota" = Some (VInt options_quota) ->
  d !! py "currency" = Some (VStr currency) ->
  d !! py "nationality" = Some (VStr nationality) ->
  ET_fromstring xml_string' = Ok root' ->
  credentials_present root' = true ->
  raw_text root' languageCode_path = Some language ->
  raw_text root' optionsQuota_path = Some (str_of_Z options_quota) ->
  raw_text root' Currency_path = Some currency ->
  raw_text root' Nationality_path = Some nationality ->
  exists d',
    parse_xml_request xml_string' = Ok d'
    /\ d' !! py "language" = Some (VStr language)
    /\ d' !! py "options_quota" = Some (VInt options_quota)
    /\ d' !! py "currency" = Some (VStr currency)
    /\ d' !! py "nationality" = Some (VStr nationality)
    /\ validated VALID_LANGUAGES DEFAULT_LANGUAGE (Some language) = language
    /\ validated VALID_CURRENCIES DEFAULT_CURRENCY (Some currency) = currency
    /\ validated VALID_NATIONALITIES DEFAULT_NATIONALITY (Some nationality)
       = nationality
    /\ converted_quota (Some (str_of_Z options_quota)) = Ok options_quota
    /\ Z.min options_quota MAX_OPTIONS_QUOTA = options_quota.
Proof.
  intros Hd Hl Hq Hc Hn Hroot' Hcred Hl' Hq' Hc' Hn'.
  destruct (parse_xml_request_Ok _ _ Hd) as (root & q0 & _ & Hq0 & _ & ->).
  rewrite normalized_language in Hl. injection Hl as Hl.
  rewrite normalized_options_quota in Hq. injection Hq as Hq.
  rewrite normalized_currency in Hc. injection Hc as Hc.
  rewrite normalized_nationality in Hn. injection Hn as Hn.
  assert (language ∈ VALID_LANGUAGES) as Hlv
    by (rewrite <- Hl; apply validated_in, DEFAULT_LANGUAGE_valid).
  assert (currency ∈ VALID_CURRENCIES) as Hcv
    by (rewrite <- Hc; apply validated_in, DEFAULT_CURRENCY_valid).
  assert (nationality ∈ VALID_NATIONALITIES) as Hnv
    by (rewrite <- Hn; apply validated_in, DEFAULT_NATIONALITY_valid).
  assert (0 <= options_quota <= 50) as Hrange.
  { pose proof (converted_quota_nonneg _ _ Hq0).
    unfold MAX_OPTIONS_QUOTA in Hq. lia. }
  exists (normalized root' options_quota).
  split.
  { rewrite (parse_xml_request_root _ _ Hroot'), Hq',
      (converted_quota_str _ Hrange), Hcred. reflexivity. }
  rewrite normalized_language, normalized_options_quota,
    normalized_currency, normalized_nationality, Hl', Hc', Hn'.
  rewrite (validated_valid _ _ _ Hlv), (validated_valid _ _ _ Hcv),
    (validated_valid _ _ _ Hnv).
  rewrite (converted_quota_str _ Hrange).
  unfold MAX_OPTIONS_QUOTA. rewrite Z.min_l by lia.
  repeat split; reflexivity.
Qed.

End Idempotence.

(** ** The outcomes of a run *)

Section Outcomes.
Context {rt : Runtime}.

(** X1.  With the credentials present the extraction succeeds as soon as the
    quota conversion returns; it returns in particular when the quota is
    absent or is a text that [str.isdigit] rejects. *)
Theorem extraction_succeeds (xml_string : str) (root : ET.Element) :
  ET_fromstring xml_string = Ok root ->
  credentials_present root = true ->
  (forall q, converted_quota (raw_text root optionsQuota_path) = Ok q ->
             parse_xml_request xml_string = Ok (normalized root q))
  /\ ((raw_text root optionsQuota_path = None
       \/ exists t, raw_text root optionsQuota_path = Some t
                    /\ isdigit t = false) ->
      parse_xml_request xml_string = Ok (normalized root DEFAULT_OPTIONS_QUOTA)).
Proof.
  intros Hroot Hcred.
  pose proof (parse_xml_request_root _ _ Hroot) as Hparse.
  rewrite Hcred in Hparse. split.
  - intros q Hq. rewrite Hq in Hparse. exact Hparse.
  - intros Hq. rewrite (converted_quota_default _ Hq) in Hparse. exact Hparse.
Qed.

(** X2.  Without the credentials no pricing document is printed, and the
    error document names the required parameters as soon as the quota
    conversion returns. *)
Theorem missing_credentials_error (xml_string : str) (root : ET.Element) :
  ET_fromstring xml_string = Ok root ->
  credentials_present root = false ->
  (forall q, converted_quota (raw_text root optionsQuota_path) = Ok q ->
             execution xml_string
             = Printed (error_document missing_parameters_message))
  /\ (forall doc, execution xml_string = Printed doc -> offer doc = None).
Proof.
  intros Hroot Hcred. unfold execution.
  rewrite (parse_xml_request_root _ _ Hroot), Hcred.
  destruct (converted_quota _) as [q|e]; cbn [mbind result_bind exn_class].
  - split; [intros; reflexivity|]. intros doc [= <-]. reflexivity.
  - split; [intros q [=]|].
    destruct (issubclass (exn_class e) ValueError); intros doc [= <-]. reflexivity.
Qed.

(** X3.  Every run ends in one of three ways: the extractor returns a
    record, the builder returns a response on that record and this
    response is printed; or the extractor raises an exception that
    derives from [ValueError] and its error document is printed; or the
    extractor raises an exception that does not, and the run ends with
    its traceback.  The builder never raises on an extracted record. *)
Theorem execution_outcomes (xml_string : str) :
  (exists d doc,
      parse_xml_request xml_string = Ok d
      /\ generate_json_response d = Ok doc
      /\ execution xml_string = Printed doc
      /\ exists c n, d !! py "currency" = Some (VStr c)
                     /\ d !! py "nationality" = Some (VStr n)
                     /\ doc = response (VStr c) (VStr n))
  \/ (exists e,
         parse_xml_request xml_string = Raise e
         /\ issubclass (exn_class e) ValueError = true
         /\ execution xml_string = Printed (error_document (exn_str e)))
  \/ (exists e,
         parse_xml_request xml_string = Raise e
         /\ issubclass (exn_class e) ValueError = false
         /\ execution xml_string = Traceback e).
Proof.
  destruct (parse_xml_request xml_string) as [d|e] eqn:Hd.
  - left.
    destruct (parse_xml_request_Ok _ _ Hd) as (root & q & _ & _ & _ & ->).
    pose proof (normalized_currency root q) as Hc.
    pose proof (normalized_nationality root q) as Hn.
    pose proof (generate_json_response_currency _ _ Hc) as Hdoc.
    rewrite Hn in Hdoc.
    eexists _, _. split; [reflexivity|]. split; [exact Hdoc|].
    split; [apply (execution_Ok _ _ _ _ Hd Hc Hn)|].
    eexists _, _. split; [exact Hc|]. split; [exact Hn|reflexivity].
  - right. unfold execution. rewrite Hd. cbn [mbind result_bind].
    destruct (issubclass (exn_class e) ValueError) eqn:Hc; [left|right];
      exists e; repeat split; assumption || reflexivity.
Qed.

End Outcomes.

(** ** ASCII digits *)

Lemma ascii_digit_isdigit (c : N) :
  (48 <= c <= 57)%N -> Unicode.isdigit c = true.
Proof.
  intros H. unfold Unicode.isdigit, Unicode.decimal, Unicode.decimal_ranges.
  cbn [Unicode.find_range].
  replace ((48 <=? c) && (c <=? 57))%N with true; [reflexivity|].
  symmetry. apply andb_true_iff. split; apply N.leb_le; lia.
Qed.

Lemma ascii_digits_cons (c : N) (t : str) :
  ascii_digits (c :: t) = true -> (48 <= c <= 57)%N /\ ascii_digits t = true.
Proof.
  unfold ascii_digits. cbn [forallb]. intros H.
  apply andb_true_iff in H as [Hc Ht]. apply andb_true_iff in Hc as [H1 H2].
  apply N.leb_le in H1, H2. split; [lia|exact Ht].
Qed.

Lemma ascii_digits_isdigit (t : str) :
  t <> [] -> ascii_digits t = true -> isdigit t = true.
Proof.
  intros Hne H. destruct t as [|c t]; [congruence|]. unfold isdigit.
  clear Hne. revert H. generalize (c :: t). intros l. induction l as [|a l IH].
  - reflexivity.
  - intros H. apply ascii_digits_cons in H as [Ha Hl]. cbn [forallb].
    rewrite (ascii_digit_isdigit a Ha), (IH Hl). reflexivity.
Qed.

Lemma to_ascii_decimal_ascii (t : str) :
  ascii_digits t = true -> to_ascii_decimal t = t.
Proof.
  induction t as [|c t IH]; [reflexivity|]. intros H.
  apply ascii_digits_cons in H as [Hc Ht]. cbn [to_ascii_decimal].
  replace (c <? 127)%N with true by (symmetry; apply N.ltb_lt; lia).
  rewrite (IH Ht). reflexivity.
Qed.

Lemma scan_ascii (t : str) :
  forall (v : Z) (n : N),
    ascii_digits t = true ->
    scan t v n false
    = ScanDone (fold_left (fun v c => 10 * v + Z.of_N (c - 48)) t v)
               (n + N.of_nat (length t)) [].
Proof.
  induction t as [|c t IH]; intros v n H.
  - cbn. rewrite N.add_0_r. reflexivity.
  - apply ascii_digits_cons in H as [Hc Ht]. cbn [scan fold_left length].
    replace (c =? 95)%N with false by (symmetry; apply N.eqb_neq; lia).
    unfold c_digit.
    replace ((48 <=? c) && (c <=? 57))%N with true
      by (symmetry; apply andb_true_iff; split; apply N.leb_le; lia).
    rewrite (IH _ _ Ht). f_equal. lia.
Qed.

Section Ascii_int.
Context {rt : Runtime}.

(** What [int] does with a string of ASCII digits: its value, unless the
    string is longer than the limit allows. *)
Lemma int_ascii (t : str) :
  t <> [] -> ascii_digits t = true ->
  int t =
    if ((640 <? N.of_nat (length t)) && (0 <? int_max_str_digits)
        && (int_max_str_digits <? N.of_nat (length t)))%N
    then Raise (exceeds_limit (N.of_nat (length t)))
    else Ok (decimal_value t).
Proof.
  intros Hne H. unfold int. rewrite (to_ascii_decimal_ascii t H).
  destruct t as [|c t]; [congruence|].
  pose proof (ascii_digits_cons _ _ H) as [Hc _].
  assert (skip_spaces (c :: t) = c :: t) as ->.
  { cbn [skip_spaces]. unfold is_c_space.
    replace (c <=? 13)%N with false by (symmetry; apply N.leb_gt; lia).
    replace (c =? 32)%N with false by (symmetry; apply N.eqb_neq; lia).
    rewrite andb_false_r. reflexivity. }
  unfold read_sign, starts_with.
  replace (c =? 43)%N with false by (symmetry; apply N.eqb_neq; lia).
  replace (c =? 45)%N with false by (symmetry; apply N.eqb_neq; lia).
  replace (c =? 95)%N with false by (symmetry; apply N.eqb_neq; lia).
  rewrite (scan_ascii (c :: t) 0 0 H). rewrite N.add_0_l.
  destruct (_ && _)%N; [reflexivity|].
  replace (N.of_nat (length (c :: t)) =? 0)%N with false
    by (symmetry; apply N.eqb_neq; cbn [length]; lia).
  reflexivity.
Qed.

Lemma int_ascii_short (t : str) :
  t <> [] -> ascii_digits t = true -> (length t <= 640)%nat ->
  int t = Ok (decimal_value t).
Proof.
  intros Hne H Hlen. rewrite (int_ascii t Hne H).
  replace (640 <? N.of_nat (length t))%N with false
    by (symmetry; apply N.ltb_ge; lia).
  reflexivity.
Qed.

End Ascii_int.

(** ** Decimal numerals *)

Lemma of_uint_acc_bounds (d : Decimal.uint) :
  forall acc : positive,
    (N.pos acc * 10 ^ N.of_nat (Decimal.nb_digits d)
     <= N.pos (Pos.of_uint_acc d acc)
     < (N.pos acc + 1) * 10 ^ N.of_nat (Decimal.nb_digits d))%N.
Proof.
  induction d as [|d IH|d IH|d IH|d IH|d IH|d IH|d IH|d IH|d IH|d IH];
    intros acc;
    [cbn; lia|..];
    cbn [Pos.of_uint_acc Decimal.nb_digits];
    rewrite Nat2N.inj_succ, N.pow_succ_r';
    match goal with
    | |- context [Pos.of_uint_acc d ?a] => specialize (IH a)
    end;
    set (P := (10 ^ N.of_nat (Decimal.nb_digits d))%N) in *;
    nia.
Qed.

Lemma to_uint_normal (n : N) : Decimal.unorm (N.to_uint n) = N.to_uint n.
Proof.
  rewrite <- (DecimalN.Unsigned.to_of (N.to_uint n)).
  rewrite DecimalN.Unsigned.of_to. reflexivity.
Qed.

(** A positive number lies between the powers of ten that its number of
    digits gives. *)
Lemma to_uint_bounds (n : N) :
  (0 < n)%N ->
  exists k : nat,
    Decimal.nb_digits (N.to_uint n) = S k
    /\ (10 ^ N.of_nat k <= n < 10 * 10 ^ N.of_nat k)%N.
Proof.
  intros Hn. pose proof (DecimalN.Unsigned.of_to n) as Hof.
  pose proof (to_uint_normal n) as Hnorm.
  destruct (N.to_uint n) as [|d|d|d|d|d|d|d|d|d|d] eqn:E.
  - cbn in Hof. lia.
  - exfalso. rewrite DecimalFacts.unorm_D0 in Hnorm.
    destruct d as [|d|d|d|d|d|d|d|d|d|d]; [cbn in Hof; lia|..];
      match type of Hnorm with
      | Decimal.unorm ?u = _ =>
          assert (u <> Decimal.Nil) as Hu by discriminate;
          pose proof (DecimalFacts.nb_digits_unorm u Hu) as Hlen;
          rewrite Hnorm in Hlen; cbn [Decimal.nb_digits] in Hlen; lia
      end.
  - exists (Decimal.nb_digits d). split; [reflexivity|].
    cbn [N.of_uint Pos.of_uint] in Hof. pose proof (of_uint_acc_bounds d 1). lia.
  - exists (Decimal.nb_digits d). split; [reflexivity|].
    cbn [N.of_uint Pos.of_uint] in Hof. pose proof (of_uint_acc_bounds d 2). lia.
  - exists (Decimal.nb_digits d). split; [reflexivity|].
    cbn [N.of_uint Pos.of_uint] in Hof. pose proof (of_uint_acc_bounds d 3). lia.
  - exists (Decimal.nb_digits d). split; [reflexivity|].
    cbn [N.of_uint Pos.of_uint] in Hof. pose proof (of_uint_acc_bounds d 4). lia.
  - exists (Decimal.nb_digits d). split; [reflexivity|].
    cbn [N.of_uint Pos.of_uint] in Hof. pose proof (of_uint_acc_bounds d 5). lia.
  - exists (Decimal.nb_digits d). split; [reflexivity|].
    cbn [N.of_uint Pos.of_uint] in Hof. pose proof (of_uint_acc_bounds d 6). lia.
  - exists (Decimal.nb_digits d). split; [reflexivity|].
    cbn [N.of_uint Pos.of_uint] in Hof. pose proof (of_uint_acc_bounds d 7). lia.
  - exists (Decimal.nb_digits d). split; [reflexivity|].
    cbn [N.of_uint Pos.of_uint] in Hof. pose proof (of_uint_acc_bounds d 8). lia.
  - exists (Decimal.nb_digits d). split; [reflexivity|].
    cbn [N.of_uint Pos.of_uint] in Hof. pose proof (of_uint_acc_bounds d 9). lia.
Qed.

Lemma py_String (a : ascii) (s : string) : py (String a s) = N_of_ascii a :: py s.
Proof. reflexivity. Qed.

Lemma length_string_of_uint (d : Decimal.uint) :
  length (py (NilEmpty.string_of_uint d)) = Decimal.nb_digits d.
Proof.
  induction d; cbn [NilEmpty.string_of_uint Decimal.nb_digits];
    [reflexivity|..]; rewrite py_String; cbn [length]; f_equal; assumption.
Qed.

Lemma ascii_digits_string_of_uint (d : Decimal.uint) :
  ascii_digits (py (NilEmpty.string_of_uint d)) = true.
Proof.
  induction d; cbn [NilEmpty.string_of_uint]; [reflexivity|..];
    rewrite py_String; unfold ascii_digits in *; cbn [forallb];
    rewrite IHd; reflexivity.
Qed.

(** Reading the numeral of a number gives the number back. *)
Lemma fold_string_of_uint (d : Decimal.uint) :
  forall acc : positive,
    fold_left (fun v c => 10 * v + Z.of_N (c - 48))
              (py (NilEmpty.string_of_uint d)) (Z.pos acc)
    = Z.pos (Pos.of_uint_acc d acc).
Proof.
  induction d; intros acc; cbn [NilEmpty.string_of_uint Pos.of_uint_acc];
    [reflexivity|..]; rewrite py_String; cbn [fold_left];
    rewrite <- IHd; f_equal; cbn; lia.
Qed.

Lemma decimal_value_str_of_N (n : N) :
  decimal_value (str_of_N n) = Z.of_N n.
Proof.
  unfold str_of_N, decimal_value.
  pose proof (DecimalN.Unsigned.of_to n) as Hof.
  destruct (N.eq_dec n 0%N) as [->|Hn]; [reflexivity|].
  pose proof (to_uint_normal n) as Hnorm.
  destruct (N.to_uint n) as [|d|d|d|d|d|d|d|d|d|d] eqn:E;
    [cbn in Hof; lia
    |exfalso; rewrite DecimalFacts.unorm_D0 in Hnorm;
     destruct d as [|d|d|d|d|d|d|d|d|d|d]; [cbn in Hof; lia|..];
     match type of Hnorm with
     | Decimal.unorm ?u = _ =>
         assert (u <> Decimal.Nil) as Hu by discriminate;
         pose proof (DecimalFacts.nb_digits_unorm u Hu) as Hlen;
         rewrite Hnorm in Hlen; cbn [Decimal.nb_digits] in Hlen; lia
     end
    |..];
    cbn [NilEmpty.string_of_uint]; rewrite py_String; cbn [fold_left];
    cbn [N.of_uint Pos.of_uint] in Hof; rewrite <- Hof;
    match goal with
    | |- fold_left _ _ ?v = _ =>
        let v' := eval vm_compute in v in change v with v'
    end;
    rewrite fold_string_of_uint; reflexivity.
Qed.

(** A number of eight digits is printed with eight ASCII digits. *)
Lemma str_of_N_eight_digits (n : N) :
  (10000000 <= n <= 99999999)%N ->
  length (str_of_N n) = 8%nat /\ ascii_digits (str_of_N n) = true.
Proof.
  intros Hn. unfold str_of_N. rewrite length_string_of_uint.
  split; [|apply ascii_digits_string_of_uint].
  destruct (to_uint_bounds n) as (k & -> & Hlo & Hhi); [lia|]. f_equal.
  destruct (Nat.lt_trichotomy k 7) as [Hk|[->|Hk]]; [|reflexivity|]; exfalso.
  - assert (10 ^ N.of_nat k <= 10 ^ 6)%N by (apply N.pow_le_mono_r; lia).
    change (10 ^ 6)%N with 1000000%N in *. lia.
  - assert (10 ^ 8 <= 10 ^ N.of_nat k)%N by (apply N.pow_le_mono_r; lia).
    change (10 ^ 8)%N with 100000000%N in *. lia.
Qed.

(** ** Further properties of the extractor *)

Lemma elem_of_required (k : str) :
  k ∈ required_parameters -> In k required_parameters.
Proof. apply list_elem_of_In. Qed.

Section Extractor_more.
Context {rt : Runtime}.

Lemma converted_quota_Raise (t : option str) (e : exn) :
  converted_quota t = Raise e ->
  exists v, t = Some v /\ isdigit v = true /\ int v = Raise e.
Proof.
  destruct t as [[|c v]|]; unfold converted_quota; try discriminate.
  destruct (isdigit (c :: v)) eqn:Hd; [|discriminate].
  intros H. exists (c :: v). repeat split; assumption.
Qed.

Lemma execution_Raise (s : str) (e : exn) :
  parse_xml_request s = Raise e ->
  execution s =
    if issubclass (exn_class e) ValueError
    then Printed (error_document (exn_str e)) else Traceback e.
Proof. intros H. unfold execution. rewrite H. reflexivity. Qed.

Lemma execution_normalized (s : str) (root : ET.Element) (q : Z) :
  parse_xml_request s = Ok (normalized root q) ->
  execution s =
    Printed (response
               (VStr (validated VALID_CURRENCIES DEFAULT_CURRENCY
                        (raw_text root Currency_path)))
               (VStr (validated VALID_NATIONALITIES DEFAULT_NATIONALITY
                        (raw_text root Nationality_path)))).
Proof.
  intros H. eapply execution_Ok; [exact H|apply normalized_currency
                                        |apply normalized_nationality].
Qed.

(** The record is a function of the seven texts, the conversion of the
    quota and the presence of the credentials. *)
Lemma parse_xml_request_texts (s1 s2 : str) (root1 root2 : ET.Element) :
  ET_fromstring s1 = Ok root1 ->
  ET_fromstring s2 = Ok root2 ->
  Forall (fun path => raw_text root1 path = raw_text root2 path) request_paths ->
  credentials_present root1 = credentials_present root2 ->
  parse_xml_request s1 = parse_xml_request s2.
Proof.
  intros H1 H2 Htexts Hcred.
  rewrite (parse_xml_request_root _ _ H1), (parse_xml_request_root _ _ H2).
  unfold request_paths in Htexts.
  repeat match goal with
         | H : Forall _ (_ :: _) |- _ =>
             let Hd := fresh "Hd" in
             apply Forall_cons_1 in H as [Hd H]
         end.
  unfold normalized.
  rewrite Hcred, Hd, Hd0, Hd1, Hd2, Hd3, Hd4, Hd5. reflexivity.
Qed.

(** X5.  A record has exactly the seven keys; its [options_quota] is an
    [int] between 0 and 50, its [search_type] a [str], and each date [None]
    or a [str]. *)
Theorem record_shape (xml_string : str) (d : gmap str value) :
  parse_xml_request xml_string = Ok d ->
  dom d = {[ py "language"; py "options_quota"; py "search_type";
             py "start_date"; py "end_date"; py "currency"; py "nationality" ]}
  /\ (exists q, d !! py "options_quota" = Some (VInt q) /\ 0 <= q <= 50)
  /\ (exists t, d !! py "search_type" = Some (VStr t))
  /\ (exists t, d !! py "start_date" = Some (value_of_text t))
  /\ (exists t, d !! py "end_date" = Some (value_of_text t)).
Proof.
  intros Hd.
  destruct (parse_xml_request_Ok _ _ Hd) as (root & q & _ & Hq & _ & ->).
  split.
  { unfold normalized, request_record.
    rewrite !dom_insert_L, dom_empty_L. set_solver. }
  split.
  { eexists. split; [apply normalized_options_quota|].
    pose proof (converted_quota_nonneg _ _ Hq). unfold MAX_OPTIONS_QUOTA. lia. }
  split; [eexists; apply normalized_search_type|].
  unfold normalized.
  split; eexists; [apply record_start_date|apply record_end_date].
Qed.

(** X6.  With the credentials present, a quota written with ASCII
    digits, at most 640 of them, gives the number it denotes, cut down to
    50: zero and leading zeros are accepted. *)
Theorem ascii_quota_value (xml_string : str) (root : ET.Element) (t : str) :
  ET_fromstring xml_string = Ok root ->
  credentials_present root = true ->
  raw_text root optionsQuota_path = Some t ->
  t <> [] ->
  ascii_digits t = true ->
  (length t <= 640)%nat ->
  exists d,
    parse_xml_request xml_string = Ok d
    /\ d !! py "options_quota" = Some (VInt (Z.min (decimal_value t) 50)).
Proof.
  intros Hroot Hcred Ht Hne Hdigits Hlen.
  exists (normalized root (decimal_value t)). split.
  - rewrite (parse_xml_request_root _ _ Hroot), Ht,
      (converted_quota_digits t (ascii_digits_isdigit t Hne Hdigits)),
      (int_ascii_short t Hne Hdigits Hlen), Hcred. reflexivity.
  - apply normalized_options_quota.
Qed.

(** X7.  Under a digit limit, a quota of ASCII digits longer than the
    limit (and than 640) makes the script print the error document of the
    limit, with or without credentials. *)
Theorem quota_beyond_digit_limit (xml_string : str) (root : ET.Element)
    (t : str) :
  ET_fromstring xml_string = Ok root ->
  raw_text root optionsQuota_path = Some t ->
  ascii_digits t = true ->
  (640 < N.of_nat (length t))%N ->
  (0 < int_max_str_digits < N.of_nat (length t))%N ->
  execution xml_string
  = Printed (error_document (exn_str (exceeds_limit (N.of_nat (length t))))).
Proof.
  intros Hroot Ht Hdigits Hlen Hlimit.
  assert (t <> []) as Hne by (intros ->; cbn in Hlen; lia).
  rewrite (execution_Raise xml_string (exceeds_limit (N.of_nat (length t))));
    [reflexivity|].
  rewrite (parse_xml_request_root _ _ Hroot), Ht,
    (converted_quota_digits t (ascii_digits_isdigit t Hne Hdigits)),
    (int_ascii t Hne Hdigits).
  replace (640 <? N.of_nat (length t))%N with true
    by (symmetry; apply N.ltb_lt; lia).
  replace (0 <? int_max_str_digits)%N with true
    by (symmetry; apply N.ltb_lt; lia).
  replace (int_max_str_digits <? N.of_nat (length t))%N with true
    by (symmetry; apply N.ltb_lt; lia).
  reflexivity.
Qed.

(** X8.  A language, currency or nationality that is a member of its
    allowed set is kept as it is, in the record and in the offer. *)
Theorem valid_fields_kept (xml_string : str) (root : ET.Element)
    (d : gmap str value) :
  ET_fromstring xml_string = Ok root ->
  parse_xml_request xml_string = Ok d ->
  (forall v, raw_text root languageCode_path = Some v -> v ∈ VALID_LANGUAGES ->
             d !! py "language" = Some (VStr v))
  /\ (forall v, raw_text root Currency_path = Some v -> v ∈ VALID_CURRENCIES ->
                d !! py "currency" = Some (VStr v)
                /\ exists doc, execution xml_string = Printed doc
                               /\ price_field (py "currency") doc = Some (JStr v)
                               /\ price_field (py "selling_currency") doc
                                  = Some (JStr v))
  /\ (forall v, raw_text root Nationality_path = Some v ->
                v ∈ VALID_NATIONALITIES ->
                d !! py "nationality" = Some (VStr v)
                /\ exists doc, execution xml_string = Printed doc
                               /\ offer_field (py "market") doc = Some (JStr v)).
Proof.
  intros Hroot Hd.
  destruct (parse_xml_request_Ok _ _ Hd) as (root' & q & Hroot' & _ & _ & ->).
  assert (root' = root) as -> by congruence.
  pose proof (execution_normalized _ _ _ Hd) as Hrun.
  split; [|split].
  - intros v Hv Hin. rewrite normalized_language, Hv, validated_valid by exact Hin.
    reflexivity.
  - intros v Hv Hin. rewrite Hv, validated_valid in Hrun by exact Hin.
    rewrite normalized_currency, Hv, validated_valid by exact Hin.
    split; [reflexivity|]. eexists. split; [exact Hrun|].
    split; [apply response_currency|apply response_selling_currency].
  - intros v Hv Hin. rewrite Hv, validated_valid in Hrun by exact Hin.
    rewrite normalized_nationality, Hv, validated_valid by exact Hin.
    split; [reflexivity|]. eexists. split; [exact Hrun|]. apply response_market.
Qed.

(** X9.  The dates are not examined: [start_date] and [end_date] are the
    texts of the first [StartDate] and [EndDate] elements, whatever they
    are, the empty string for an element without text and [None] when
    there is no such element. *)
Theorem dates_pass_through (xml_string : str) (root : ET.Element)
    (d : gmap str value) :
  ET_fromstring xml_string = Ok root ->
  parse_xml_request xml_string = Ok d ->
  d !! py "start_date"
  = Some (match ET.find root StartDate_path with
          | None => VNone
          | Some e => VStr (match ET.text e with Some t => t | None => [] end)
          end)
  /\ d !! py "end_date"
     = Some (match ET.find root EndDate_path with
             | None => VNone
             | Some e => VStr (match ET.text e with Some t => t | None => [] end)
             end).
Proof.
  intros Hroot Hd.
  destruct (parse_xml_request_Ok _ _ Hd) as (root' & q & Hroot' & _ & _ & ->).
  assert (root' = root) as -> by congruence.
  unfold normalized. rewrite record_start_date, record_end_date.
  unfold raw_text, ET.findtext.
  split.
  - destruct (ET.find root StartDate_path) as [e|]; [|reflexivity].
    destruct (ET.text e); reflexivity.
  - destruct (ET.find root EndDate_path) as [e|]; [|reflexivity].
    destruct (ET.text e); reflexivity.
Qed.

(** X10.  Two documents with the same seven texts, both with or both
    without their credentials, give the same record or the same error,
    and the same run: nothing else of a document (the values of the
    credentials, other elements, other attributes) reaches the output. *)
Theorem record_determined_by_texts (xml_string1 xml_string2 : str)
    (root1 root2 : ET.Element) :
  ET_fromstring xml_string1 = Ok root1 ->
  ET_fromstring xml_string2 = Ok root2 ->
  Forall (fun path => raw_text root1 path = raw_text root2 path) request_paths ->
  credentials_present root1 = credentials_present root2 ->
  parse_xml_request xml_string1 = parse_xml_request xml_string2
  /\ execution xml_string1 = execution xml_string2.
Proof.
  intros H1 H2 Htexts Hcred.
  pose proof (parse_xml_request_texts _ _ _ _ H1 H2 Htexts Hcred) as Hsame.
  split; [exact Hsame|]. unfold execution. rewrite Hsame. reflexivity.
Qed.

(** X11.  The root element is never looked at: two documents whose roots
    have the same children give the same record or error and the same
    run, whatever the names, attributes and texts of the roots. *)
Theorem root_element_ignored (xml_string1 xml_string2 : str)
    (tag1 tag2 : str) (attrib1 attrib2 : gmap str str)
    (text1 text2 tail1 tail2 : option str) (children : list ET.Element) :
  ET_fromstring xml_string1
  = Ok (ET.mkElement tag1 attrib1 text1 children tail1) ->
  ET_fromstring xml_string2
  = Ok (ET.mkElement tag2 attrib2 text2 children tail2) ->
  parse_xml_request xml_string1 = parse_xml_request xml_string2
  /\ execution xml_string1 = execution xml_string2.
Proof.
  intros H1 H2.
  assert (parse_xml_request xml_string1 = parse_xml_request xml_string2) as Hsame.
  { apply (parse_xml_request_texts _ _ _ _ H1 H2).
    - repeat constructor.
    - reflexivity. }
  split; [exact Hsame|]. unfold execution. rewrite Hsame. reflexivity.
Qed.

(** X12.  Only the first [Parameter] element under
    [Configuration/Parameters] is examined: when it lacks one of the three
    attributes the script prints the error document that names them
    (once the quota is converted), whatever the elements after it hold. *)
Theorem first_parameter_decides (xml_string : str) (root p : ET.Element)
    (ps : list ET.Element) (k : str) (q : Z) :
  ET_fromstring xml_string = Ok root ->
  ET.iterfind root Parameter_path = p :: ps ->
  k ∈ required_parameters ->
  ET.attrib p !! k = None ->
  converted_quota (raw_text root optionsQuota_path) = Ok q ->
  execution xml_string = Printed (error_document missing_parameters_message).
Proof.
  intros Hroot Hiter Hk Hnone Hq.
  assert (credentials_present root = false) as Hcred.
  { unfold credentials_present, ET.find. rewrite Hiter. cbn [head].
    destruct (forallb _ required_parameters) eqn:Hall; [|reflexivity].
    rewrite List.forallb_forall in Hall.
    specialize (Hall k (elem_of_required k Hk)).
    apply bool_decide_eq_true in Hall. rewrite Hnone in Hall.
    destruct Hall as [x Hx]. discriminate Hx. }
  rewrite (execution_Raise xml_string (mkExn ValueError missing_parameters_message)).
  - reflexivity.
  - rewrite (parse_xml_request_root _ _ Hroot), Hq, Hcred. reflexivity.
Qed.

End Extractor_more.

(** ** Further properties of the response builder and of a run *)

Lemma same_interpreter_int (rt1 rt2 : Runtime) (t : str) :
  same_interpreter rt1 rt2 -> @int rt1 t = @int rt2 t.
Proof.
  intros (_ & Hlimit & Hrepr).
  unfold int, invalid_literal, exceeds_limit. rewrite Hlimit, Hrepr. reflexivity.
Qed.

Lemma same_interpreter_parse (rt1 rt2 : Runtime) (s : str) :
  same_interpreter rt1 rt2 ->
  @parse_xml_request rt1 s = @parse_xml_request rt2 s.
Proof.
  intros Hsame. pose proof Hsame as (Hparser & _ & _).
  destruct (@ET_fromstring rt1 s) as [root|e] eqn:H1.
  - pose proof H1 as H2. rewrite Hparser in H2.
    rewrite (@parse_xml_request_root rt1 _ _ H1),
      (@parse_xml_request_root rt2 _ _ H2).
    assert (@converted_quota rt1 (raw_text root optionsQuota_path)
            = @converted_quota rt2 (raw_text root optionsQuota_path)) as ->.
    { unfold converted_quota.
      destruct (raw_text root optionsQuota_path) as [[|c t]|]; try reflexivity.
      rewrite (same_interpreter_int rt1 rt2 (c :: t) Hsame). reflexivity. }
    reflexivity.
  - pose proof H1 as H2. rewrite Hparser in H2.
    unfold parse_xml_request. rewrite H1, H2. reflexivity.
Qed.

Section Builder_more.
Context {rt : Runtime}.

Lemma generate_json_response_Ok (d : gmap str value) (doc : json) :
  generate_json_response d = Ok doc ->
  exists c, d !! py "currency" = Some c
            /\ doc = response c (match d !! py "nationality" with
                                 | Some v => v
                                 | None => VStr DEFAULT_MARKET
                                 end).
Proof.
  intros H. destruct (d !! py "currency") as [c|] eqn:Hc.
  - rewrite (generate_json_response_currency d c Hc) in H.
    injection H as <-. exists c. split; reflexivity.
  - unfold generate_json_response, getitem in H. rewrite Hc in H. discriminate H.
Qed.

(** X13.  On a record without the key [currency] the builder raises
    [KeyError] at line 88, whatever else the record holds, and the handler
    of the script would not catch it; the script never gets there: every
    record the extractor returns has a [currency], and the builder returns
    a response on it. *)
Theorem generate_json_response_needs_currency (d : gmap str value) :
  (d !! py "currency" = None ->
   generate_json_response d = Raise (mkExn KeyError (repr (py "currency")))
   /\ issubclass KeyError ValueError = false)
  /\ (forall xml_string,
         parse_xml_request xml_string = Ok d ->
         is_Some (d !! py "currency")
         /\ exists doc, generate_json_response d = Ok doc).
Proof.
  split.
  - intros Hc. split; [|reflexivity].
    unfold generate_json_response, getitem. rewrite Hc. reflexivity.
  - intros xml_string Hd.
    destruct (parse_xml_request_Ok _ _ Hd) as (root & q & _ & _ & _ & ->).
    pose proof (normalized_currency root q) as Hc.
    split; [eexists; exact Hc|].
    eexists. apply (generate_json_response_currency _ _ Hc).
Qed.

(** X14.  The [market] of the response is whatever the record holds as
    [nationality], unexamined, and ["ES"] when the record has no such
    key. *)
Theorem market_echoes_nationality (d : gmap str value) (currency : value) :
  d !! py "currency" = Some currency ->
  exists doc,
    generate_json_response d = Ok doc
    /\ (forall v, d !! py "nationality" = Some v ->
                  offer_field (py "market") doc = Some (json_of_value v))
    /\ (d !! py "nationality" = None ->
        offer_field (py "market") doc = Some (JStr (py "ES"))).
Proof.
  intros Hc. eexists. split; [apply (generate_json_response_currency d _ Hc)|].
  rewrite response_market. split.
  - intros v ->. reflexivity.
  - intros ->. reflexivity.
Qed.

(** X15.  The price block does not depend on the request but for the
    currency: [net] is 132.42, [selling_price] 136.66, [markup] 3.2 and
    [minimumSellingPrice] null, [selling_currency] repeats [currency],
    and the exchange rate is reported without being applied to the
    price. *)
Theorem price_block_constant (d : gmap str value) (doc : json) :
  generate_json_response d = Ok doc ->
  price_field (py "net") doc = Some (JFloat 132.42%float)
  /\ price_field (py "selling_price") doc = Some (JFloat 136.66%float)
  /\ price_field (py "markup") doc = Some (JFloat 3.2%float)
  /\ price_field (py "minimumSellingPrice") doc = Some JNull
  /\ price_field (py "selling_currency") doc = price_field (py "currency") doc
  /\ exists c, d !! py "currency" = Some c
               /\ price_field (py "currency") doc = Some (json_of_value c)
               /\ price_field (py "exchange_rate") doc
                  = Some (JFloat (EXCHANGE_RATES_get c 1.0%float)).
Proof.
  intros H. destruct (generate_json_response_Ok d doc H) as (c & Hc & ->).
  rewrite response_selling_price, selling_price_136_66.
  repeat split; try reflexivity.
  exists c. repeat split; first [exact Hc|reflexivity].
Qed.

(** X16.  When [random.randint] honours its bounds, [hotelCodeSupplier]
    is a string of exactly eight ASCII digits, the decimal numeral of the
    number drawn; [id] is ["A#"] followed by the formatted time. *)
Theorem hotel_code_eight_digits (d : gmap str value) (doc : json) :
  10000000 <= randint 10000000 99999999 <= 99999999 ->
  generate_json_response d = Ok doc ->
  exists code,
    offer_field (py "hotelCodeSupplier") doc = Some (JStr code)
    /\ length code = 8%nat
    /\ ascii_digits code = true
    /\ decimal_value code = randint 10000000 99999999
    /\ offer_field (py "id") doc = Some (JStr (py "A#" ++ strftime_now)).
Proof.
  intros Hrange H. destruct (generate_json_response_Ok d doc H) as (c & _ & ->).
  exists (str_of_Z (randint 10000000 99999999)).
  split; [reflexivity|].
  assert (str_of_Z (randint 10000000 99999999)
          = str_of_N (Z.to_N (randint 10000000 99999999))) as ->.
  { unfold str_of_Z. destruct (randint 10000000 99999999); try reflexivity. lia. }
  destruct (str_of_N_eight_digits (Z.to_N (randint 10000000 99999999)))
    as [Hlen Hdigits]; [lia|].
  split; [exact Hlen|]. split; [exact Hdigits|]. split; [|reflexivity].
  rewrite decimal_value_str_of_N. lia.
Qed.

(** X17.  A traceback comes from the XML parser alone: a run ends with
    the traceback of [e] exactly when the parser raises [e] and the class
    of [e] does not derive from [ValueError]. *)
Theorem traceback_only_from_parser (xml_string : str) (e : exn) :
  execution xml_string = Traceback e
  <-> ET_fromstring xml_string = Raise e
      /\ issubclass (exn_class e) ValueError = false.
Proof.
  split.
  - intros Hrun. destruct (parse_xml_request xml_string) as [d|e'] eqn:Hd.
    + destruct (parse_xml_request_Ok _ _ Hd) as (root & q & _ & _ & _ & ->).
      rewrite (execution_normalized _ _ _ Hd) in Hrun. discriminate Hrun.
    + rewrite (execution_Raise _ _ Hd) in Hrun.
      destruct (issubclass (exn_class e') ValueError) eqn:Hclass;
        [discriminate Hrun|]. injection Hrun as ->.
      split; [|exact Hclass].
      destruct (ET_fromstring xml_string) as [root|e0] eqn:Hroot.
      * exfalso. rewrite (parse_xml_request_root _ _ Hroot) in Hd.
        destruct (converted_quota _) as [q|e1] eqn:Hq.
        -- destruct (credentials_present root); [discriminate Hd|].
           injection Hd as <-. discriminate Hclass.
        -- injection Hd as ->.
           destruct (converted_quota_Raise _ _ Hq) as (v & _ & _ & Hint).
           destruct (int_Raise_ValueError v e Hint) as [Hv _].
           rewrite Hv in Hclass. discriminate Hclass.
      * unfold parse_xml_request in Hd. rewrite Hroot in Hd.
        injection Hd as ->. reflexivity.
  - intros [Hroot Hclass]. rewrite (execution_Raise xml_string e).
    + rewrite Hclass. reflexivity.
    + unfold parse_xml_request. rewrite Hroot. reflexivity.
Qed.

(** X18.  The message of a printed error document is the one that names
    the required parameters, or one of the two messages of [int] on a
    quota text that [str.isdigit] accepted, or the message of a
    [ValueError] raised by the XML parser. *)
Theorem error_document_messages (xml_string : str) (doc : json) :
  execution xml_string = Printed doc ->
  offer doc = None ->
  exists m,
    doc = error_document m
    /\ (m = missing_parameters_message
        \/ (exists root t,
               ET_fromstring xml_string = Ok root
               /\ raw_text root optionsQuota_path = Some t
               /\ isdigit t = true
               /\ quota_error_message t m)
        \/ (exists e,
               ET_fromstring xml_string = Raise e
               /\ issubclass (exn_class e) ValueError = true
               /\ m = exn_str e)).
Proof.
  intros Hrun Hoffer. destruct (parse_xml_request xml_string) as [d|e] eqn:Hd.
  - destruct (parse_xml_request_Ok _ _ Hd) as (root & q & _ & _ & _ & ->).
    rewrite (execution_normalized _ _ _ Hd) in Hrun. injection Hrun as <-.
    discriminate Hoffer.
  - rewrite (execution_Raise _ _ Hd) in Hrun.
    destruct (issubclass (exn_class e) ValueError) eqn:Hclass;
      [|discriminate Hrun]. injection Hrun as <-.
    exists (exn_str e). split; [reflexivity|].
    destruct (ET_fromstring xml_string) as [root|e0] eqn:Hroot.
    + rewrite (parse_xml_request_root _ _ Hroot) in Hd.
      destruct (converted_quota _) as [q|e1] eqn:Hq.
      * destruct (credentials_present root); [discriminate Hd|].
        injection Hd as <-. left. reflexivity.
      * injection Hd as ->.
        destruct (converted_quota_Raise _ _ Hq) as (v & Hv & Hdigit & Hint).
        right; left. exists root, v. repeat split; try assumption.
        unfold quota_error_message.
        destruct (int_Raise v e Hint) as [->|[n ->]]; [left|right; exists n];
          reflexivity.
    + unfold parse_xml_request in Hd. rewrite Hroot in Hd. injection Hd as ->.
      right; right. exists e. repeat split. exact Hclass.
Qed.

End Builder_more.

(** X19.  The clock and the random generator reach the output through
    [id] and [hotelCodeSupplier] only: two runtimes with the same parser,
    digit limit and [repr] extract the same record, print offers with the
    same [market] and [price], print the same error document and end with
    the same traceback. *)
Theorem clock_and_random_confined (rt1 rt2 : Runtime) (xml_string : str) :
  same_interpreter rt1 rt2 ->
  @parse_xml_request rt1 xml_string = @parse_xml_request rt2 xml_string
  /\ match @execution rt1 xml_string, @execution rt2 xml_string with
     | Printed doc1, Printed doc2 =>
         offer_field (py "market") doc1 = offer_field (py "market") doc2
         /\ offer_field (py "price") doc1 = offer_field (py "price") doc2
         /\ (offer doc1 = None -> doc1 = doc2)
     | Traceback e1, Traceback e2 => e1 = e2
     | _, _ => False
     end.
Proof.
  intros Hsame. pose proof (same_interpreter_parse rt1 rt2 xml_string Hsame) as Hp.
  split; [exact Hp|].
  destruct (@parse_xml_request rt1 xml_string) as [d|e] eqn:H1; symmetry in Hp.
  - destruct (@parse_xml_request_Ok rt1 _ _ H1) as (root & q & _ & _ & _ & ->).
    rewrite (@execution_normalized rt1 _ _ _ H1),
      (@execution_normalized rt2 _ _ _ Hp).
    split; [reflexivity|]. split; [reflexivity|]. intros H. discriminate H.
  - rewrite (@execution_Raise rt1 _ _ H1), (@execution_Raise rt2 _ _ Hp).
    destruct (issubclass (exn_class e) ValueError); [|reflexivity].
    repeat split; reflexivity.
Qed.

(** ** The script as it stands *)

(** X4.  The script on its own request [xml_input] (lines 109-128), once
    the parser returns the tree the reference reader builds for it: at
    any reading of the clock and any draw it prints one offer, for the
    market [US] and in dollars, at the selling price 136.66 and the
    exchange rate 1.1; the clock and the draw show in the [id] and the
    hotel code only. *)
Theorem example_request_offer {rt : Runtime} :
  ET_fromstring xml_input = Reference.fromstring xml_input ->
  execution xml_input
  = Printed (JList [JDict [
      (py "id", JStr (py "A#" ++ strftime_now));
      (py "hotelCodeSupplier", JStr (str_of_Z (randint 10000000 99999999)));
      (py "market", JStr (py "US"));
      (py "price", JDict [
        (py "minimumSellingPrice", JNull);
        (py "currency", JStr (py "USD"));
        (py "net", JFloat 132.42%float);
        (py "selling_price", JFloat 136.66%float);
        (py "selling_currency", JStr (py "USD"));
        (py "markup", JFloat 3.2%float);
        (py "exchange_rate", JFloat 1.1%float)])]]).
Proof.
  intros Hparser.
  assert (exists root,
             Reference.fromstring xml_input = Ok root
             /\ credentials_present root = true
             /\ raw_text root optionsQuota_path = Some (py "20")
             /\ raw_text root Currency_path = Some (py "USD")
             /\ raw_text root Nationality_path = Some (py "US"))
    as (root & Href & Hcred & Hq & Hc & Hn).
  { eexists. split; [run|]. repeat split; run. }
  rewrite Href in Hparser.
  assert (parse_xml_request xml_input = Ok (normalized root 20)) as Hd.
  { rewrite (parse_xml_request_root _ _ Hparser), Hq, Hcred.
    rewrite (converted_quota_digits (py "20") ltac:(run)).
    rewrite (int_ascii_short (py "20") ltac:(discriminate) ltac:(run)
               ltac:(vm_compute; lia)).
    reflexivity. }
  rewrite (execution_normalized _ _ _ Hd), Hc, Hn.
  unfold response. rewrite selling_price_136_66.
  vm_compute. reflexivity.
Qed.

(** ** The theorems at work on the example documents *)

Lemma not_in_valid (v : str) (valid : gset str) :
  bool_decide (v ∈ valid) = false -> v ∉ valid.
Proof. intros H Hin. rewrite (bool_decide_eq_true_2 _ Hin) in H. discriminate H. Qed.

(** The request with a quota of 75 is cut down to 50. *)
Lemma options_quota_normalized_witness :
  exists d,
    @parse_xml_request example_runtime unnormalized_request = Ok d
    /\ d !! py "options_quota" = Some (VInt 50).
Proof.
  assert (exists root,
             @ET_fromstring example_runtime unnormalized_request = Ok root
             /\ credentials_present root = true
             /\ raw_text root optionsQuota_path = Some (py "75"))
    as (root & Hroot & Hcred & Ht).
  { eexists. split; [run|]. split; run. }
  destruct (@options_quota_normalized example_runtime unnormalized_request root
              Hroot Hcred) as (Hmax & _).
  apply (Hmax (py "75") 75 Ht); [run|run|lia].
Defined.

(** The request whose quota is a superscript two, credentials present:
    the extraction raises. *)
Lemma quota_digits_rejected_by_int_witness :
  @parse_xml_request example_runtime superscript_quota_request
  = Raise (@invalid_literal example_runtime [superscript_two]).
Proof.
  assert (exists root,
             @ET_fromstring example_runtime superscript_quota_request = Ok root
             /\ credentials_present root = true
             /\ raw_text root optionsQuota_path = Some [superscript_two])
    as (root & Hroot & Hcred & Ht).
  { eexists. split; [run|]. split; run. }
  destruct (@int_superscript_two example_runtime) as [Hd He].
  exact (proj1 (@quota_digits_rejected_by_int example_runtime
                  superscript_quota_request root [superscript_two] _
                  Hroot Hcred Ht Hd He)).
Defined.

(** The same request without credentials: the error document is that of
    [int], not the one naming the required parameters. *)
Lemma quota_error_before_credentials_witness :
  @execution example_runtime superscript_quota_no_credentials
  = Printed (error_document
               (py "invalid literal for int() with base 10: '"
                ++ [superscript_two] ++ py "'"))
  /\ py "invalid literal for int() with base 10: '" ++ [superscript_two] ++ py "'"
     <> missing_parameters_message.
Proof.
  assert (exists root,
             @ET_fromstring example_runtime superscript_quota_no_credentials
             = Ok root
             /\ credentials_present root = false
             /\ raw_text root optionsQuota_path = Some [superscript_two])
    as (root & Hroot & Hcred & Ht).
  { eexists. split; [run|]. split; run. }
  destruct (@int_superscript_two example_runtime) as [Hd He].
  exact (@quota_error_before_credentials example_runtime
           superscript_quota_no_credentials root [superscript_two] _
           Hroot Hcred Ht Hd He).
Defined.

(** The unknown language, currency and nationality are replaced by the
    defaults, in the record and in the offer. *)
Lemma enumerated_fields_validated_witness :
  exists d doc,
    @parse_xml_request example_runtime unnormalized_request = Ok d
    /\ d !! py "language" = Some (VStr (py "en"))
    /\ @execution example_runtime unnormalized_request = Printed doc
    /\ price_field (py "currency") doc = Some (JStr (py "EUR"))
    /\ offer_field (py "market") doc = Some (JStr (py "US")).
Proof.
  assert (exists root,
             @ET_fromstring example_runtime unnormalized_request = Ok root
             /\ raw_text root languageCode_path = Some (py "it")
             /\ raw_text root Currency_path = Some (py "XYZ")
             /\ raw_text root Nationality_path = Some (py "FR"))
    as (root & Hroot & Hl & Hc & Hn).
  { eexists. split; [run|]. split; [run|]. split; run. }
  destruct (@parse_xml_request example_runtime unnormalized_request)
    as [d|e] eqn:Hd; [|vm_compute in Hd; discriminate Hd].
  destruct (@enumerated_fields_validated example_runtime unnormalized_request
              root d Hroot Hd)
    as (l & c & n & doc & Hdl & Hdc & Hdn & _ & _ & _ & Hl' & Hc' & Hn'
        & Hrun & Hpc & _ & Hm).
  rewrite Hl in Hl'. rewrite Hc in Hc'. rewrite Hn in Hn'.
  rewrite (Hl' (not_in_valid (py "it") VALID_LANGUAGES ltac:(run))) in Hdl.
  rewrite (Hc' (not_in_valid (py "XYZ") VALID_CURRENCIES ltac:(run))) in Hpc.
  rewrite (Hn' (not_in_valid (py "FR") VALID_NATIONALITIES ltac:(run))) in Hm.
  exists d, doc. repeat split; assumption.
Defined.

(** The market of the example request of the script is its nationality. *)
Lemma market_is_nationality_witness :
  exists doc nationality,
    @execution example_runtime xml_input = Printed doc
    /\ offer_field (py "market") doc = Some (JStr nationality)
    /\ nationality <> py "ES".
Proof.
  destruct (@parse_xml_request example_runtime xml_input)
    as [d|e] eqn:Hd; [|vm_compute in Hd; discriminate Hd].
  destruct (@market_is_nationality example_runtime xml_input d Hd)
    as (doc & n & Hrun & _ & Hm & _ & Hne & _).
  exists doc, n. repeat split; assumption.
Defined.

(** A record in sterling gets the rate 0.9. *)
Lemma exchange_rate_lookup_witness :
  exists doc,
    @generate_json_response example_runtime
      (request_record (py "en") 20 (py "Single") None None (py "GBP") (py "US"))
    = Ok doc
    /\ price_field (py "exchange_rate") doc = Some (JFloat 0.9%float).
Proof.
  destruct (@exchange_rate_lookup example_runtime
              (request_record (py "en") 20 (py "Single") None None
                 (py "GBP") (py "US"))
              (VStr (py "GBP"))
              (record_currency _ _ _ _ _ _ _))
    as (doc & rate & Hgen & Hrate & _ & _ & _ & Hgbp & _).
  exists doc. split; [exact Hgen|]. rewrite <- (Hgbp eq_refl). exact Hrate.
Defined.

(** The request with a quota of 75 and unknown values, and the request
    that carries its normalized values, give the same four values. *)
Lemma extraction_idempotent_witness :
  exists d',
    @parse_xml_request example_runtime renormalized_request = Ok d'
    /\ d' !! py "language" = Some (VStr (py "en"))
    /\ d' !! py "options_quota" = Some (VInt 50)
    /\ d' !! py "currency" = Some (VStr (py "EUR"))
    /\ d' !! py "nationality" = Some (VStr (py "US")).
Proof.
  cut (exists d',
          @parse_xml_request example_runtime renormalized_request = Ok d'
          /\ d' !! py "language" = Some (VStr (py "en"))
          /\ d' !! py "options_quota" = Some (VInt 50)
          /\ d' !! py "currency" = Some (VStr (py "EUR"))
          /\ d' !! py "nationality" = Some (VStr (py "US"))
          /\ validated VALID_LANGUAGES DEFAULT_LANGUAGE (Some (py "en")) = py "en"
          /\ validated VALID_CURRENCIES DEFAULT_CURRENCY (Some (py "EUR")) = py "EUR"
          /\ validated VALID_NATIONALITIES DEFAULT_NATIONALITY (Some (py "US"))
             = py "US"
          /\ @converted_quota example_runtime (Some (str_of_Z 50)) = Ok 50
          /\ Z.min 50 MAX_OPTIONS_QUOTA = 50).
  { intros (d' & H1 & H2 & H3 & H4 & H5 & _). exists d'. repeat split; assumption. }
  assert (exists root',
             @ET_fromstring example_runtime renormalized_request = Ok root'
             /\ credentials_present root' = true
             /\ raw_text root' languageCode_path = Some (py "en")
             /\ raw_text root' optionsQuota_path = Some (str_of_Z 50)
             /\ raw_text root' Currency_path = Some (py "EUR")
             /\ raw_text root' Nationality_path = Some (py "US"))
    as (root' & Hroot' & Hcred & Hl & Hq & Hc & Hn).
  { eexists. split; [run|]. repeat split; run. }
  apply (@extraction_idempotent example_runtime unnormalized_request
           renormalized_request root'
           (request_record (py "en") 50 [] None None (py "EUR") (py "US"))
           (py "en") (py "EUR") (py "US") 50);
    first [ assumption
          | apply record_language | apply record_options_quota
          | apply record_currency | apply record_nationality
          | run ].
Defined.

(** The empty [SearchType] element gives the empty string. *)
Lemma search_type_empty_text_witness :
  exists d,
    @parse_xml_request example_runtime unnormalized_request = Ok d
    /\ d !! py "search_type" = Some (VStr []).
Proof.
  assert (exists root e,
             @ET_fromstring example_runtime unnormalized_request = Ok root
             /\ ET.find root SearchType_path = Some e
             /\ ET.text e = None)
    as (root & e & Hroot & He & Ht).
  { eexists. eexists. split; [run|]. split; run. }
  destruct (@parse_xml_request example_runtime unnormalized_request)
    as [d|err] eqn:Hd; [|vm_compute in Hd; discriminate Hd].
  destruct (@search_type_empty_text example_runtime unnormalized_request
              root d Hroot Hd) as (Hempty & _).
  exists d. split; [reflexivity|exact (Hempty e He Ht)].
Defined.

(** The request with no quota and its credentials is extracted. *)
Lemma extraction_succeeds_witness :
  exists d, @parse_xml_request example_runtime sterling_request = Ok d.
Proof.
  assert (exists root,
             @ET_fromstring example_runtime sterling_request = Ok root
             /\ credentials_present root = true
             /\ raw_text root optionsQuota_path = None)
    as (root & Hroot & Hcred & Ht).
  { eexists. split; [run|]. split; run. }
  destruct (@extraction_succeeds example_runtime sterling_request root
              Hroot Hcred) as (_ & Hdefault).
  eexists. apply Hdefault. left. exact Ht.
Defined.

(** A request with no quota and no credentials gets the error document
    that names the required parameters. *)
Lemma missing_credentials_error_witness :
  @execution example_runtime (py "<AvailRQ><Currency>USD</Currency></AvailRQ>")
  = Printed (error_document missing_parameters_message).
Proof.
  assert (exists root,
             @ET_fromstring example_runtime
               (py "<AvailRQ><Currency>USD</Currency></AvailRQ>") = Ok root
             /\ credentials_present root = false
             /\ @converted_quota example_runtime
                  (raw_text root optionsQuota_path) = Ok 20)
    as (root & Hroot & Hcred & Hq).
  { eexists. split; [run|]. split; run. }
  destruct (@missing_credentials_error example_runtime _ root Hroot Hcred)
    as (Herror & _).
  exact (Herror 20 Hq).
Defined.

(** ** The further properties at work on the example documents *)

Lemma record_shape_witness :
  exists d,
    @parse_xml_request example_runtime valid_request = Ok d
    /\ exists q, d !! py "options_quota" = Some (VInt q) /\ 0 <= q <= 50.
Proof.
  destruct (@parse_xml_request example_runtime valid_request)
    as [d|e] eqn:Hd; [|vm_compute in Hd; discriminate Hd].
  destruct (@record_shape example_runtime valid_request d Hd) as (_ & Hq & _).
  exists d. split; [reflexivity|exact Hq].
Defined.

(** The quota 007 is 7. *)
Lemma ascii_quota_value_witness :
  exists d,
    @parse_xml_request example_runtime valid_request = Ok d
    /\ d !! py "options_quota" = Some (VInt 7).
Proof.
  assert (exists root,
             @ET_fromstring example_runtime valid_request = Ok root
             /\ credentials_present root = true
             /\ raw_text root optionsQuota_path = Some (py "007"))
    as (root & Hroot & Hcred & Ht).
  { eexists. split; [run|]. split; run. }
  apply (@ascii_quota_value example_runtime valid_request root (py "007")
           Hroot Hcred Ht); [discriminate|run|vm_compute; lia].
Defined.

(** A quota of 4301 digits runs into the default limit of 4300. *)
Lemma quota_beyond_digit_limit_witness :
  @execution example_runtime long_quota_request
  = Printed (error_document
               (exn_str (@exceeds_limit example_runtime 4301))).
Proof.
  assert (exists root,
             @ET_fromstring example_runtime long_quota_request = Ok root
             /\ raw_text root optionsQuota_path = Some (repeat 57%N 4301))
    as (root & Hroot & Ht).
  { eexists. split; run. }
  apply (@quota_beyond_digit_limit example_runtime long_quota_request root
           (repeat 57%N 4301) Hroot Ht); [run|vm_compute; reflexivity|].
  split; vm_compute; reflexivity.
Defined.

Lemma valid_fields_kept_witness :
  exists d,
    @parse_xml_request example_runtime valid_request = Ok d
    /\ d !! py "language" = Some (VStr (py "fr")).
Proof.
  assert (exists root,
             @ET_fromstring example_runtime valid_request = Ok root
             /\ raw_text root languageCode_path = Some (py "fr"))
    as (root & Hroot & Hl).
  { eexists. split; run. }
  destruct (@parse_xml_request example_runtime valid_request)
    as [d|e] eqn:Hd; [|vm_compute in Hd; discriminate Hd].
  destruct (@valid_fields_kept example_runtime valid_request root d Hroot Hd)
    as (Hlang & _).
  exists d. split; [reflexivity|]. apply (Hlang (py "fr") Hl).
  unfold VALID_LANGUAGES. set_solver.
Defined.

(** A start date after the end date, and an end date that is no date. *)
Lemma dates_pass_through_witness :
  exists d,
    @parse_xml_request example_runtime dated_request = Ok d
    /\ d !! py "start_date" = Some (VStr (py "31/12/2024"))
    /\ d !! py "end_date" = Some (VStr (py "yesterday")).
Proof.
  assert (exists root e1 e2,
             @ET_fromstring example_runtime dated_request = Ok root
             /\ ET.find root StartDate_path = Some e1
             /\ ET.text e1 = Some (py "31/12/2024")
             /\ ET.find root EndDate_path = Some e2
             /\ ET.text e2 = Some (py "yesterday"))
    as (root & e1 & e2 & Hroot & H1 & T1 & H2 & T2).
  { eexists _, _, _. split; [run|]. repeat split; run. }
  destruct (@parse_xml_request example_runtime dated_request)
    as [d|e] eqn:Hd; [|vm_compute in Hd; discriminate Hd].
  destruct (@dates_pass_through example_runtime dated_request root d Hroot Hd)
    as (Hs & He).
  rewrite H1, T1 in Hs. rewrite H2, T2 in He.
  exists d. repeat split; assumption.
Defined.

(** The sterling request and the same request under another root. *)
Lemma record_determined_by_texts_witness :
  @execution example_runtime sterling_request
  = @execution example_runtime other_root_request.
Proof.
  assert (exists root1 root2,
             @ET_fromstring example_runtime sterling_request = Ok root1
             /\ @ET_fromstring example_runtime other_root_request = Ok root2
             /\ Forall (fun path => raw_text root1 path = raw_text root2 path)
                       request_paths
             /\ credentials_present root1 = credentials_present root2)
    as (root1 & root2 & H1 & H2 & Htexts & Hcred).
  { eexists _, _. split; [run|]. split; [run|]. split; [|run].
    repeat constructor; run. }
  exact (proj2 (@record_determined_by_texts example_runtime _ _ root1 root2
                  H1 H2 Htexts Hcred)).
Defined.

Lemma root_element_ignored_witness :
  @parse_xml_request example_runtime sterling_request
  = @parse_xml_request example_runtime other_root_request.
Proof.
  assert (exists tag1 tag2 attrib1 attrib2 text1 text2 tail1 tail2 children,
             @ET_fromstring example_runtime sterling_request
             = Ok (ET.mkElement tag1 attrib1 text1 children tail1)
             /\ @ET_fromstring example_runtime other_root_request
                = Ok (ET.mkElement tag2 attrib2 text2 children tail2))
    as (tag1 & tag2 & attrib1 & attrib2 & text1 & text2 & tail1 & tail2
        & children & H1 & H2).
  { eexists _, _, _, _, _, _, _, _, _. split; run. }
  exact (proj1 (@root_element_ignored example_runtime _ _ _ _ _ _ _ _ _ _ _
                  H1 H2)).
Defined.

(** The second [Parameter] element holds the three credentials; the
    first one, which lacks the username, decides. *)
Lemma first_parameter_decides_witness :
  @execution example_runtime two_parameters_request
  = Printed (error_document missing_parameters_message).
Proof.
  assert (exists root p ps,
             @ET_fromstring example_runtime two_parameters_request = Ok root
             /\ ET.iterfind root Parameter_path = p :: ps
             /\ ET.attrib p !! py "username" = None
             /\ @converted_quota example_runtime
                  (raw_text root optionsQuota_path) = Ok 20)
    as (root & p & ps & Hroot & Hiter & Hnone & Hq).
  { eexists _, _, _. split; [run|]. split; [run|]. split; run. }
  apply (@first_parameter_decides example_runtime two_parameters_request
           root p ps (py "username") 20 Hroot Hiter); [|exact Hnone|exact Hq].
  unfold required_parameters. apply list_elem_of_In. right. left. reflexivity.
Defined.

(** A record in dollars with no nationality goes to the market ES. *)
Lemma market_echoes_nationality_witness :
  exists doc,
    @generate_json_response example_runtime {[ py "currency" := VStr (py "USD") ]}
    = Ok doc
    /\ offer_field (py "market") doc = Some (JStr (py "ES")).
Proof.
  destruct (@market_echoes_nationality example_runtime
              {[ py "currency" := VStr (py "USD") ]} (VStr (py "USD"))
              (lookup_singleton_eq _ _))
    as (doc & Hdoc & _ & Hnone).
  exists doc. split; [exact Hdoc|]. apply Hnone.
  apply lookup_singleton_ne. key_neq.
Defined.

Lemma price_block_constant_witness :
  exists doc,
    @generate_json_response example_runtime {[ py "currency" := VStr (py "GBP") ]}
    = Ok doc
    /\ price_field (py "selling_price") doc = Some (JFloat 136.66%float).
Proof.
  destruct (@generate_json_response example_runtime
              {[ py "currency" := VStr (py "GBP") ]}) as [doc|e] eqn:Hdoc;
    [|vm_compute in Hdoc; discriminate Hdoc].
  exists doc. split; [reflexivity|].
  exact (proj1 (proj2 (@price_block_constant example_runtime
                         {[ py "currency" := VStr (py "GBP") ]} doc Hdoc))).
Defined.

Lemma hotel_code_eight_digits_witness :
  exists doc code,
    @generate_json_response example_runtime {[ py "currency" := VStr (py "GBP") ]}
    = Ok doc
    /\ offer_field (py "hotelCodeSupplier") doc = Some (JStr code)
    /\ length code = 8%nat.
Proof.
  destruct (@generate_json_response example_runtime
              {[ py "currency" := VStr (py "GBP") ]}) as [doc|e] eqn:Hdoc;
    [|vm_compute in Hdoc; discriminate Hdoc].
  destruct (@hotel_code_eight_digits example_runtime
              {[ py "currency" := VStr (py "GBP") ]} doc) as
    (code & Hcode & Hlen & _); [vm_compute; split; discriminate|exact Hdoc|].
  exists doc, code. repeat split; assumption.
Defined.

(** The error document of the superscript quota carries a message of
    [int]. *)
Lemma error_document_messages_witness :
  exists m,
    @execution example_runtime superscript_quota_no_credentials
    = Printed (error_document m).
Proof.
  destruct (@execution example_runtime superscript_quota_no_credentials)
    as [doc|e] eqn:Hrun; [|vm_compute in Hrun; discriminate Hrun].
  assert (offer doc = None) as Hoffer.
  { vm_compute in Hrun. injection Hrun as <-. reflexivity. }
  destruct (@error_document_messages example_runtime
              superscript_quota_no_credentials doc Hrun Hoffer)
    as (m & -> & _).
  exists m. reflexivity.
Defined.

(** The same request at two moments, with two draws. *)
Lemma clock_and_random_confined_witness :
  @parse_xml_request (Reference.runtime (py "20250219120000") 12345678) xml_input
  = @parse_xml_request (Reference.runtime (py "20260101000000") 87654321) xml_input.
Proof.
  assert (same_interpreter (Reference.runtime (py "20250219120000") 12345678)
            (Reference.runtime (py "20260101000000") 87654321)) as Hsame.
  { split; [intros s; reflexivity|]. split; [reflexivity|intros s; reflexivity]. }
  destruct (clock_and_random_confined _ _ xml_input Hsame) as [Hp _].
  exact Hp.
Defined.

(** The script at the reference reading of the clock, with the reference
    draw. *)
Lemma example_request_offer_witness :
  exists doc,
    @execution example_runtime xml_input = Printed doc
    /\ offer_field (py "id") doc = Some (JStr (py "A#20250219120000"))
    /\ offer_field (py "hotelCodeSupplier") doc = Some (JStr (py "12345678")).
Proof.
  eexists. split; [apply (@example_request_offer example_runtime); reflexivity|].
  split; run.
Defined.
